(** * friendhome-express: checkout distance gate, pricing and order submission

    A shallow embedding of [src/pages/Checkout.tsx] and of what it touches.

    Numbers: a JavaScript [number] is read as a real number, so [Math.sin],
    [Math.cos], [Math.sqrt] and [Math.PI] are the functions and the constant of
    the Standard Library's [Reals].  [Math.sqrt] of a negative number and
    [Math.atan2] are discussed where they are introduced.  Where a statement
    turns on the rounding of binary64 arithmetic, the arithmetic of the page
    is read a second time, on the floating-point numbers of the kernel
    ([Binary64]). *)

From Stdlib Require Import Reals Machin Zfloor Lra Lia List Ascii String Bool.
From Stdlib Require PrimFloat FloatOps SpecFloat QArith Qabs Qround.
Import ListNotations.

Open Scope R_scope.

(** ** The JavaScript [Math] functions the page calls *)

Module Math.

(** [Math.atan2(y, x)]: the angle of the point [(x, y)], in [(-PI, PI]].
    [Math.atan2(0, 0)] is [0]. *)
Definition atan2 (y x : R) : R :=
  if Rlt_dec 0 x then atan (y / x)
  else if Rlt_dec x 0 then
    if Rle_dec 0 y then atan (y / x) + PI else atan (y / x) - PI
  else if Rlt_dec 0 y then PI / 2
  else if Rlt_dec y 0 then - (PI / 2)
  else 0.

(** [Math.sqrt] is [NaN] below zero, where [sqrt] of the library is [0];
    [haversine_a_range] below shows that [calculateDistance] never takes the
    root of a negative number. *)
Definition sqrt (x : R) : R := R_sqrt.sqrt x.

End Math.

(** ** Constants of the page (lines 16-19) *)

Definition RESTAURANT_LAT : R := 13.0878.
Definition RESTAURANT_LNG : R := 80.2085.
Definition MAX_DELIVERY_DISTANCE : R := 10.

(** ** [calculateDistance] (lines 28-38) *)

(** The local [a] of [calculateDistance], with the source's association of the
    products. *)
Definition haversine_a (lat1 lon1 lat2 lon2 : R) : R :=
  let dLat := (lat2 - lat1) * PI / 180 in
  let dLon := (lon2 - lon1) * PI / 180 in
  sin (dLat / 2) * sin (dLat / 2) +
  cos (lat1 * PI / 180) * cos (lat2 * PI / 180) *
  sin (dLon / 2) * sin (dLon / 2).

Definition calculateDistance (lat1 lon1 lat2 lon2 : R) : R :=
  let R := 6371 in
  let a := haversine_a lat1 lon1 lat2 lon2 in
  let c := 2 * Math.atan2 (Math.sqrt a) (Math.sqrt (1 - a)) in
  R * c.

(** The haversine formula as the specification words it: differences turned
    into radians, [a = sin²(Δlat/2) + cos(lat1)·cos(lat2)·sin²(Δlng/2)] with
    the latitudes in radians, and [2·R·atan2(√a, √(1−a))], [R = 6371]. *)
Module HaversineSpec.

Definition earth_radius : R := 6371.

Definition radians (deg : R) : R := deg * (PI / 180).

Definition a (lat1 lng1 lat2 lng2 : R) : R :=
  (sin (radians (lat2 - lat1) / 2)) ^ 2 +
  cos (radians lat1) * cos (radians lat2) *
  (sin (radians (lng2 - lng1) / 2)) ^ 2.

Definition distance (lat1 lng1 lat2 lng2 : R) : R :=
  2 * earth_radius *
  Math.atan2 (Math.sqrt (a lat1 lng1 lat2 lng2))
             (Math.sqrt (1 - a lat1 lng1 lat2 lng2)).

End HaversineSpec.

(** ** Data (the rows of the backend, [supabase/migrations]) *)

(** The [order_status] enum of the [orders] table. *)
Inductive order_status :=
| placed | preparing | out_for_delivery | delivered | cancelled.

Module User.
Record t := { id : string }.
End User.

(** A line of the cart as [useCart] hands it to the page. *)
Module CartItem.
Record t := { id : string; title : string; price : R; quantity : R }.
End CartItem.

(** The object inserted into [addresses] (lines 110-116). *)
Module Address.
Record t := {
  user_id : string;
  label : string;
  address_line : string;
  latitude : R;
  longitude : R }.
End Address.

(** The object inserted into [orders] (lines 131-141). *)
Module Order.
Record t := {
  user_id : string;
  address_id : string;
  subtotal : R;
  tax : R;
  delivery_fee : R;
  total : R;
  distance_km : R;
  notes : string;
  status : order_status }.
End Order.

(** An element of the array inserted into [order_items] (lines 148-154). *)
Module OrderItem.
Record t := {
  order_id : string;
  menu_item_id : string;
  quantity : R;
  price : R;
  item_title : string }.
End OrderItem.

(** ** The cart context *)

Module CartContext.

(** Modelled from the spec: [total] of [useCart()] ([contexts/CartContext]
    is not among the sources); section 4.2 gives it as the sum of
    price × quantity over the lines of the cart. *)
Definition total (items : list CartItem.t) : R :=
  fold_right Rplus 0
    (map (fun item => CartItem.price item * CartItem.quantity item) items).

End CartContext.

(** ** Pricing (lines 123-126, and again lines 172-175) *)

Record Totals := {
  subtotal : R;
  tax : R;
  deliveryFee : R;
  orderTotal : R }.

Definition totals (total : R) : Totals :=
  let subtotal := total in
  let tax := subtotal * 0.05 in
  let deliveryFee := 30 in
  let orderTotal := subtotal + tax + deliveryFee in
  {| subtotal := subtotal; tax := tax;
     deliveryFee := deliveryFee; orderTotal := orderTotal |}.

(** ** Address validation (lines 21-26 and 85-95) *)

Module addressSchema.

(** The issues of [addressSchema.safeParse], in the order of the schema's
    keys; [z.number()] accepts every real, so [latitude] and [longitude]
    raise none.  The parse succeeds when the list is empty. *)
Definition safeParse (label address_line : string) (latitude longitude : R)
  : list string :=
  (if (String.length label <? 1)%nat
   then ["Label is required"%string] else []) ++
  (if (String.length address_line <? 10)%nat
   then ["Address must be at least 10 characters"%string] else []).

End addressSchema.

(** ** The world the handler acts on *)

(** What [toast] is given.  The template literal of line 100 is kept as its
    two interpolated numbers: the limit and the distance that [toFixed(1)]
    prints. *)
Inductive Message :=
| Text (s : string)
| OutOfRange (limit distance : R).

Inductive Toast :=
| toast_error (m : Message)
| toast_success (m : Message).

(** The error object of a failed request. *)
Record StoreError := { message : string }.

(** The answer of the backend to an insert: the generated [id] of the new
    row ([data.id]), or [error]. *)
Inductive Reply :=
| Created (id : string)
| Failed (error : StoreError).

(** The backend decides each request; it is a parameter of the handler. *)
Record Backend := {
  addresses_insert : Address.t -> Reply;
  orders_insert : Order.t -> Reply;
  order_items_insert : list OrderItem.t -> option StoreError }.

(** The requests sent to the backend. *)
Inductive StoreCall :=
| InsertAddress (row : Address.t)
| InsertOrder (row : Order.t)
| InsertOrderItems (rows : list OrderItem.t).

(** The three tables the page writes; [addresses] and [orders] rows carry the
    generated id.  A row is kept as the request carried it; [orders_table]
    below gives the record the table holds, with its [numeric] columns at
    their scale. *)
Record Store := {
  addresses : list (string * Address.t);
  orders : list (string * Order.t);
  order_items : list OrderItem.t }.

Record World := {
  store : Store;
  calls : list StoreCall;       (* requests sent, oldest first *)
  toasts : list Toast;          (* toasts shown, oldest first *)
  cart : list CartItem.t;       (* the items of the cart context *)
  location : option string;     (* the last target of [navigate] *)
  loading : bool }.

(** What a render of [Checkout] closes over (lines 41-49). *)
Record Checkout := {
  items : list CartItem.t;
  total : R;
  user : option User.t;
  label : string;
  addressLine : string;
  latitude : option R;
  longitude : option R;
  notes : string }.

(** The render of the page over a world: [items] and [total] come from the
    cart context. *)
Definition render (w : World) (user : option User.t)
    (label addressLine : string) (latitude longitude : option R)
    (notes : string) : Checkout :=
  {| items := cart w; total := CartContext.total (cart w); user := user;
     label := label; addressLine := addressLine;
     latitude := latitude; longitude := longitude; notes := notes |}.

(** ** A state and exception monad for the handler *)

Inductive Completion (A : Type) :=
| Normal (a : A)
| Thrown (e : StoreError).
Arguments Normal {A} a.
Arguments Thrown {A} e.

Definition M (A : Type) : Type := World -> Completion A * World.

Definition ret {A} (a : A) : M A := fun w => (Normal a, w).

Definition bind {A B} (m : M A) (k : A -> M B) : M B :=
  fun w =>
    match m w with
    | (Normal a, w') => k a w'
    | (Thrown e, w') => (Thrown e, w')
    end.

Definition throw {A} (e : StoreError) : M A := fun w => (Thrown e, w).

Definition modify (f : World -> World) : M unit := fun w => (Normal tt, f w).

(** [try { body } catch (error) { handler } finally { fin }] *)
Definition try_catch_finally (body : M unit) (handler : StoreError -> M unit)
    (fin : M unit) : M unit :=
  fun w =>
    let r := match body w with
             | (Normal a, w') => (Normal a, w')
             | (Thrown e, w') => handler e w'
             end in
    match fin (snd r) with
    | (Normal _, w'') => (fst r, w'')
    | (Thrown e, w'') => (Thrown e, w'')
    end.

Declare Scope checkout_scope.
Delimit Scope checkout_scope with checkout.
Notation "x <- m ;; k" := (bind m (fun x => k))
  (at level 61, m at next level, right associativity) : checkout_scope.
Notation "m ;; k" := (bind m (fun _ => k))
  (at level 61, right associativity) : checkout_scope.
Open Scope checkout_scope.

(** ** Effects *)

Definition set_store (s : Store) (w : World) : World :=
  {| store := s; calls := calls w; toasts := toasts w; cart := cart w;
     location := location w; loading := loading w |}.

Definition log_call (c : StoreCall) (w : World) : World :=
  {| store := store w; calls := calls w ++ [c]; toasts := toasts w;
     cart := cart w; location := location w; loading := loading w |}.

Definition show (t : Toast) (w : World) : World :=
  {| store := store w; calls := calls w; toasts := toasts w ++ [t];
     cart := cart w; location := location w; loading := loading w |}.

Definition setLoading (b : bool) : M unit :=
  modify (fun w =>
    {| store := store w; calls := calls w; toasts := toasts w;
       cart := cart w; location := location w; loading := b |}).

(** Modelled from the spec: [clearCart] of the cart context, which is not
    among the sources, empties the cart. *)
Definition clearCart : M unit :=
  modify (fun w =>
    {| store := store w; calls := calls w; toasts := toasts w;
       cart := []; location := location w; loading := loading w |}).

Definition navigate (path : string) : M unit :=
  modify (fun w =>
    {| store := store w; calls := calls w; toasts := toasts w;
       cart := cart w; location := Some path; loading := loading w |}).

Module toast.
Definition error (m : Message) : M unit := modify (show (toast_error m)).
Definition success (m : Message) : M unit := modify (show (toast_success m)).
End toast.

(** The requests [supabase.from(table).insert(...)]: the call is logged, and
    a row the backend accepts is added to its table. *)
Module supabase.

Definition insert_address (b : Backend) (row : Address.t) : M Reply :=
    fun w =>
      let w1 := log_call (InsertAddress row) w in
      match addresses_insert b row with
      | Created id =>
          (Normal (Created id),
           set_store {| addresses := addresses (store w1) ++ [(id, row)];
                        orders := orders (store w1);
                        order_items := order_items (store w1) |} w1)
      | Failed e => (Normal (Failed e), w1)
      end.

Definition insert_order (b : Backend) (row : Order.t) : M Reply :=
    fun w =>
      let w1 := log_call (InsertOrder row) w in
      match orders_insert b row with
      | Created id =>
          (Normal (Created id),
           set_store {| addresses := addresses (store w1);
                        orders := orders (store w1) ++ [(id, row)];
                        order_items := order_items (store w1) |} w1)
      | Failed e => (Normal (Failed e), w1)
      end.

Definition insert_order_items (b : Backend) (rows : list OrderItem.t)
    : M (option StoreError) :=
    fun w =>
      let w1 := log_call (InsertOrderItems rows) w in
      match order_items_insert b rows with
      | None =>
          (Normal None,
           set_store {| addresses := addresses (store w1);
                        orders := orders (store w1);
                        order_items := order_items (store w1) ++ rows |} w1)
      | Some e => (Normal (Some e), w1)
      end.

End supabase.

(** [if (error) throw error], then the [data.id] of the reply. *)
Definition data_id (r : Reply) : M string :=
  match r with
  | Created id => ret id
  | Failed e => throw e
  end.

(** ** [handlePlaceOrder] (lines 79-170) *)

(** Truthiness of a [number]: [0] is falsy. *)
Definition truthy (x : R) : bool := if Req_dec_T x 0 then false else true.

(** Truthiness of a [number | null]. *)
Definition truthy_opt (x : option R) : bool :=
  match x with
  | Some v => truthy v
  | None => false
  end.

(** [error.message || 'Failed to place order'] *)
Definition message_or (e : StoreError) (fallback : string) : string :=
  match message e with
  | EmptyString => fallback
  | s => s
  end.

(** The [try] block (lines 107-164), over the values the checks before it
    have bound. *)
Definition place_order_try (b : Backend) (c : Checkout) (user : User.t)
    (latitude longitude distance : R) : M unit :=
  (* Create address *)
  addressReply <- supabase.insert_address b
    {| Address.user_id := User.id user;
       Address.label := label c;
       Address.address_line := addressLine c;
       Address.latitude := latitude;
       Address.longitude := longitude |} ;;
  addressData_id <- data_id addressReply ;;
  (* Calculate totals *)
  let t := totals (total c) in
  (* Create order *)
  orderReply <- supabase.insert_order b
    {| Order.user_id := User.id user;
       Order.address_id := addressData_id;
       Order.subtotal := subtotal t;
       Order.tax := tax t;
       Order.delivery_fee := deliveryFee t;
       Order.total := orderTotal t;
       Order.distance_km := distance;
       Order.notes := notes c;
       Order.status := placed |} ;;
  orderData_id <- data_id orderReply ;;
  (* Create order items *)
  let orderItems :=
    map (fun item =>
           {| OrderItem.order_id := orderData_id;
              OrderItem.menu_item_id := CartItem.id item;
              OrderItem.quantity := CartItem.quantity item;
              OrderItem.price := CartItem.price item;
              OrderItem.item_title := CartItem.title item |})
        (items c) in
  itemsError <- supabase.insert_order_items b orderItems ;;
  match itemsError with
  | Some e => throw e
  | None =>
      toast.success (Text "Order placed successfully!") ;;
      clearCart ;;
      navigate ("/orders/" ++ orderData_id)
  end.

(** The [catch] block (lines 165-166). *)
Definition place_order_catch (error : StoreError) : M unit :=
  toast.error (Text (message_or error "Failed to place order")).

Definition handlePlaceOrder (b : Backend) (c : Checkout) : M unit :=
  match user c, latitude c, longitude c with
  | Some user, Some latitude, Some longitude =>
    if negb (truthy latitude) || negb (truthy longitude)
    then toast.error (Text "Please provide delivery location")
    else
    match addressSchema.safeParse (label c) (addressLine c) latitude longitude with
    | issue :: _ => toast.error (Text issue)
    | [] =>
      let distance :=
        calculateDistance RESTAURANT_LAT RESTAURANT_LNG latitude longitude in
      if Rgt_dec distance MAX_DELIVERY_DISTANCE
      then toast.error (OutOfRange MAX_DELIVERY_DISTANCE distance)
      else
        setLoading true ;;
        try_catch_finally
          (place_order_try b c user latitude longitude distance)
          place_order_catch
          (setLoading false)
    end
  | _, _, _ => toast.error (Text "Please provide delivery location")
  end.

(** The [disabled] attribute of the "Place Order" button (line 263). *)
Definition placeOrder_disabled (loading : bool) (c : Checkout) : bool :=
  loading || negb (truthy_opt (latitude c)) || negb (truthy_opt (longitude c)).


(** ** Vocabulary of the statements *)

(** A backend that accepts every request, and one that refuses the order
    items. *)
Definition accepting_backend : Backend :=
  {| addresses_insert := fun _ => Created "address-1";
     orders_insert := fun _ => Created "order-1";
     order_items_insert := fun _ => None |}.

Definition refusing_items_backend : Backend :=
  {| addresses_insert := fun _ => Created "address-1";
     orders_insert := fun _ => Created "order-1";
     order_items_insert := fun _ => Some {| message := "permission denied" |} |}.

(** The cart of the specification's pricing example. *)
Definition example_cart : list CartItem.t :=
  [ {| CartItem.id := "m1"; CartItem.title := "Idli";
       CartItem.price := 80; CartItem.quantity := 2 |};
    {| CartItem.id := "m2"; CartItem.title := "Biryani";
       CartItem.price := 150; CartItem.quantity := 1 |} ].

Definition example_world : World :=
  {| store := {| addresses := []; orders := []; order_items := [] |};
     calls := []; toasts := []; cart := example_cart;
     location := None; loading := false |}.

Definition example_user : User.t := {| User.id := "user-1" |}.

(** ** The rows the handler builds *)

(** The three object literals of the [try] block, for the statements on the
    requests: lines 110-116, 131-141 and 148-154. *)
Definition address_row (c : Checkout) (u : User.t) (lat lng : R) : Address.t :=
  {| Address.user_id := User.id u;
     Address.label := label c;
     Address.address_line := addressLine c;
     Address.latitude := lat;
     Address.longitude := lng |}.

Definition order_row (c : Checkout) (u : User.t) (address_id : string)
    (distance : R) : Order.t :=
  {| Order.user_id := User.id u;
     Order.address_id := address_id;
     Order.subtotal := total c;
     Order.tax := total c * 0.05;
     Order.delivery_fee := 30;
     Order.total := total c + total c * 0.05 + 30;
     Order.distance_km := distance;
     Order.notes := notes c;
     Order.status := placed |}.

Definition order_item_rows (c : Checkout) (order_id : string)
  : list OrderItem.t :=
  map (fun item =>
         {| OrderItem.order_id := order_id;
            OrderItem.menu_item_id := CartItem.id item;
            OrderItem.quantity := CartItem.quantity item;
            OrderItem.price := CartItem.price item;
            OrderItem.item_title := CartItem.title item |})
      (items c).

(** ** [handleGetLocation] (lines 62-77) *)

(** What the browser answers: no [navigator.geolocation], the success
    callback with [position.coords], or the error callback. *)
Inductive Geolocation :=
| Unsupported
| Position (latitude longitude : R)
| PositionError.

(** The handler sets the two coordinates of the form and shows a toast; the
    form is returned with the world. *)
Definition handleGetLocation (g : Geolocation) (c : Checkout) (w : World)
  : Checkout * World :=
  match g with
  | Position lat lng =>
      ({| items := items c; total := total c; user := user c;
          label := label c; addressLine := addressLine c;
          latitude := Some lat; longitude := Some lng; notes := notes c |},
       show (toast_success (Text "Location captured!")) w)
  | PositionError =>
      (c, show (toast_error
                 (Text "Failed to get location. Please enter manually.")) w)
  | Unsupported =>
      (c, show (toast_error
                 (Text "Geolocation is not supported by your browser")) w)
  end.

(** ** Row-level security of the migration *)

(** The [app_role] enum (line 24 of the migration). *)
Module app_role.
Inductive t := admin | user.
Definition eqb (a b : t) : bool :=
  match a, b with
  | admin, admin | user, user => true
  | _, _ => false
  end.
End app_role.

(** [auth.uid() = column]: [auth.uid()] is [NULL] for an anonymous caller,
    and a comparison with [NULL] does not hold. *)
Definition uid_is (uid : option string) (column : string) : bool :=
  match uid with
  | Some id => String.eqb id column
  | None => false
  end.

(** [public.has_role(_user_id, _role)] (lines 41-54): whether [user_roles]
    has a row of this user and role. *)
Definition has_role (user_roles : list (string * app_role.t))
    (_user_id : option string) (_role : app_role.t) : bool :=
  existsb (fun row => uid_is _user_id (fst row) && app_role.eqb (snd row) _role)
          user_roles.

Module policy.

(** "Users can manage their own addresses" (lines 70-73), [USING] and
    [WITH CHECK] alike. *)
Definition addresses_all (uid : option string) (row : Address.t) : bool :=
  uid_is uid (Address.user_id row).

(** "Users can view their own orders" (lines 119-121). *)
Definition orders_select (user_roles : list (string * app_role.t))
    (uid : option string) (row : Order.t) : bool :=
  uid_is uid (Order.user_id row) || has_role user_roles uid app_role.admin.

(** "Users can create their own orders" (lines 123-125). *)
Definition orders_insert (uid : option string) (row : Order.t) : bool :=
  uid_is uid (Order.user_id row).

(** "Admins can update order status" (lines 127-129). *)
Definition orders_update (user_roles : list (string * app_role.t))
    (uid : option string) : bool :=
  has_role user_roles uid app_role.admin.

(** "Users can view items in their orders" (lines 144-152). *)
Definition order_items_select (user_roles : list (string * app_role.t))
    (orders : list (string * Order.t)) (uid : option string)
    (row : OrderItem.t) : bool :=
  existsb (fun o =>
             String.eqb (fst o) (OrderItem.order_id row) &&
             (uid_is uid (Order.user_id (snd o)) ||
              has_role user_roles uid app_role.admin))
          orders.

(** "Users can create order items for their orders" (lines 154-162). *)
Definition order_items_insert (orders : list (string * Order.t))
    (uid : option string) (row : OrderItem.t) : bool :=
  existsb (fun o =>
             String.eqb (fst o) (OrderItem.order_id row) &&
             uid_is uid (Order.user_id (snd o)))
          orders.

End policy.

(** ** The order tracking page ([OrderTracking], the page of [/orders/:id]) *)

Module OrderTracking.

(** [statusSteps]: the [key] and [label] of each step of the timeline. *)
Definition statusSteps : list (string * string) :=
  [ ("placed", "Order Placed");
    ("preparing", "Preparing");
    ("out_for_delivery", "Out for Delivery");
    ("delivered", "Delivered") ]%string.

(** [Array.prototype.findIndex]: the index of the first element that
    satisfies [p], [-1] when there is none. *)
Fixpoint findIndex_from {A : Type} (p : A -> bool) (l : list A) (i : Z) : Z :=
  match l with
  | [] => (-1)%Z
  | x :: rest => if p x then i else findIndex_from p rest (i + 1)%Z
  end.

Definition findIndex {A : Type} (p : A -> bool) (l : list A) : Z :=
  findIndex_from p l 0%Z.

(** [getCurrentStepIndex], over the [status] of the order when it is
    loaded. *)
Definition getCurrentStepIndex (order : option string) : Z :=
  match order with
  | None => 0%Z
  | Some status =>
      findIndex (fun step => String.eqb (fst step) status) statusSteps
  end.

(** The two flags of a step of the timeline. *)
Definition isCompleted (index : nat) (currentStepIndex : Z) : bool :=
  (Z.of_nat index <=? currentStepIndex)%Z.

Definition isCurrent (index : nat) (currentStepIndex : Z) : bool :=
  (Z.of_nat index =? currentStepIndex)%Z.

(** The update of the realtime subscription: the status of the payload
    replaces the one of the order on display, if there is one. *)
Definition on_update (prev : option string) (new_status : string)
  : option string :=
  match prev with
  | Some _ => Some new_status
  | None => None
  end.

End OrderTracking.

(** ** The admin panel ([Admin]) *)

Module Admin.

Record Order := { id : string; status : string; total : R; user_id : string }.

(** [Array.prototype.includes] on strings. *)
Definition includes (l : list string) (s : string) : bool :=
  existsb (String.eqb s) l.

Definition activeOrders (orders : list Order) : list Order :=
  filter (fun o => negb (includes ["delivered"; "cancelled"]%string (status o)))
         orders.

Definition completedOrders (orders : list Order) : list Order :=
  filter (fun o => includes ["delivered"; "cancelled"]%string (status o))
         orders.

End Admin.

(** ** The storefront ([Home]) *)

Module Home.

(** [[...new Set(values)]]: the values in the order of their first
    occurrence, each once. *)
Fixpoint Set_from (seen : list string) (values : list string) : list string :=
  match values with
  | [] => seen
  | v :: rest =>
      if existsb (String.eqb v) seen
      then Set_from seen rest
      else Set_from (seen ++ [v]) rest
  end.

(** [uniqueCategories] of [fetchMenuItems], over the [category] of each row
    of [data]; [data] is [null] when the request gave none. *)
Definition uniqueCategories (data : option (list string)) : list string :=
  Set_from []
    (match data with
     | Some categories => categories
     | None => []
     end).

End Home.

(** ** Push notifications ([lib/pushNotifications]) *)

Module pushNotifications.

(** ['='.repeat(n)] *)
Fixpoint repeat_eq (n : nat) : string :=
  match n with
  | O => EmptyString
  | S m => String "="%char (repeat_eq m)
  end.

(** [s.replace(/a/g, b)] for single characters. *)
Fixpoint replace_all (a b : Ascii.ascii) (s : string) : string :=
  match s with
  | EmptyString => EmptyString
  | String ch rest =>
      String (if Ascii.eqb ch a then b else ch) (replace_all a b rest)
  end.

(** The string that [urlBase64ToUint8Array] hands to [window.atob]. *)
Definition base64 (base64String : string) : string :=
  let padding := repeat_eq ((4 - String.length base64String mod 4) mod 4) in
  replace_all "_"%char "/"%char
    (replace_all "-"%char "+"%char (base64String ++ padding)).

(** [urlBase64ToUint8Array], with [window.atob] as a parameter: the char
    codes of the decoded string. *)
Definition urlBase64ToUint8Array (atob : string -> string)
    (base64String : string) : list nat :=
  let rawData := atob (base64 base64String) in
  map Ascii.nat_of_ascii (list_ascii_of_string rawData).

End pushNotifications.

(** ** The image upload of the admin panel ([MenuImageUpload]) *)

Module MenuImageUpload.

(** [s.split('.')]: the pieces of [s] between the dots; [piece] is the piece
    under way. *)
Fixpoint split_dot_from (piece : string) (s : string) : list string :=
  match s with
  | EmptyString => [piece]
  | String ch rest =>
      if Ascii.eqb ch "."%char
      then piece :: split_dot_from EmptyString rest
      else split_dot_from (piece ++ String ch EmptyString) rest
  end.

Definition split_dot (s : string) : list string :=
  split_dot_from EmptyString s.

(** [file.name.split('.').pop()] (line 38). *)
Definition fileExt (name : string) : string :=
  last (split_dot name) EmptyString.

End MenuImageUpload.

(** ** The [numeric] columns of [orders] (lines 107-111 of the migration) *)

(** A value written to a column [numeric(p, 2)] is rounded to two decimals,
    a tie away from zero.  (A value too large for [p] is refused; the reply
    of the backend is a parameter of the handler.) *)
Definition numeric_2 (x : R) : R :=
  if Rle_dec 0 x
  then IZR (Zfloor (x * 100 + 1 / 2)) / 100
  else - (IZR (Zfloor (- x * 100 + 1 / 2)) / 100).



(** ** The page on binary64 numbers *)

(** [calculateDistance] and the amounts of the order, operation by operation
    on IEEE 754 binary64 numbers, and the way an amount reaches its column:
    the request carries the decimal text of the number, and the column keeps
    it at two decimals. *)
Module Binary64.
Import PrimFloat QArith Qabs Qround.

(** [Math.sin], [Math.cos] and [Math.atan2] are implementation-approximated
    in ECMAScript; they are taken as any functions with the values the
    standard fixes at zero: [Math.sin(+0)] is [+0], [Math.cos(+0)] is [1],
    and [Math.atan2(+0, x)] is [+0] for [x > 0]. *)
Record Math := {
  sin : float -> float;
  cos : float -> float;
  atan2 : float -> float -> float;
  sin_zero : sin 0%float = 0%float;
  cos_zero : cos 0%float = 1%float;
  atan2_zero : atan2 0%float 1%float = 0%float }.

(** [Math.PI], the binary64 number nearest to pi. *)
Definition PI : float := 0x1.921fb54442d18p+1%float.

(** Lines 28-38; [Math.sqrt] is the square root of IEEE 754. *)
Definition calculateDistance (M : Math) (lat1 lon1 lat2 lon2 : float)
  : float :=
  (let R := 6371 in
   let dLat := (lat2 - lat1) * PI / 180 in
   let dLon := (lon2 - lon1) * PI / 180 in
   let a :=
     sin M (dLat / 2) * sin M (dLat / 2) +
     cos M (lat1 * PI / 180) * cos M (lat2 * PI / 180) *
     sin M (dLon / 2) * sin M (dLon / 2) in
   let c := 2 * atan2 M (sqrt a) (sqrt (1 - a)) in
   R * c)%float.

Definition zero : float := 0%float.

(** The smallest positive binary64 number, [5e-324] in JavaScript. *)
Definition smallest : float := 0x1p-1074%float.

(** The literal [0.05] of line 124 is the binary64 number nearest to it. *)
Definition tax_rate : float := 0x1.999999999999ap-5%float.

Record Totals := {
  subtotal : float;
  tax : float;
  deliveryFee : float;
  orderTotal : float }.

(** Lines 123-126. *)
Definition totals (total : float) : Totals :=
  let subtotal := total in
  let tax := (subtotal * tax_rate)%float in
  let deliveryFee := 30%float in
  let orderTotal := (subtotal + tax + deliveryFee)%float in
  {| subtotal := subtotal; tax := tax;
     deliveryFee := deliveryFee; orderTotal := orderTotal |}.

(** The rational number a finite binary64 number is. *)
Definition to_Q (x : float) : Q :=
  match FloatOps.Prim2SF x with
  | SpecFloat.S754_finite s m e =>
      inject_Z (if s then Z.neg m else Z.pos m) * Qpower 2 e
  | _ => 0
  end.

Definition even_significand (x : float) : bool :=
  match FloatOps.Prim2SF x with
  | SpecFloat.S754_finite _ m _ => Z.even (Z.pos m)
  | _ => true
  end.

(** [x] is the Number value for [q]: the binary64 number nearest to [q], a
    tie going to the even significand ([x] finite, with finite
    neighbours). *)
Definition reads_back (q : Q) (x : float) : bool :=
  let lo := (to_Q (next_down x) + to_Q x) / 2 in
  let hi := (to_Q x + to_Q (next_up x)) / 2 in
  match q ?= lo, q ?= hi with
  | Gt, Lt => true
  | Eq, _ | _, Eq => even_significand x
  | _, _ => false
  end.

(** The [n] with [10 ^ (n - 1) <= q < 10 ^ n], searched from [n]. *)
Fixpoint decimal_exponent (fuel : nat) (n : Z) (q : Q) : Z :=
  match fuel with
  | O => n
  | S fuel =>
      if Qle_bool (Qpower 10 n) q then decimal_exponent fuel (n + 1) q
      else if Qle_bool (Qpower 10 (n - 1)) q then n
      else decimal_exponent fuel (n - 1) q
  end.

Definition closest (x : Q) (a b : option Q) : option Q :=
  match a, b with
  | Some u, Some v =>
      if Qle_bool (Qabs (u - x)) (Qabs (v - x)) then Some u else Some v
  | Some u, None => Some u
  | None, v => v
  end.

(** The decimal of [k] digits [s * 10 ^ (n - k)] that reads back as [x], the
    one nearest to [x] if there are two; they are looked for on either side
    of [x]. *)
Definition digits (x : float) (n k : Z) : option Q :=
  let unit := Qpower 10 (n - k) in
  let s := Qfloor (to_Q x / unit) in
  let keep v := if reads_back v x then Some v else None in
  closest (to_Q x) (keep (inject_Z s * unit)) (keep (inject_Z (s + 1) * unit)).

Fixpoint shortest (fuel : nat) (x : float) (n k : Z) : Q :=
  match fuel with
  | O => to_Q x
  | S fuel =>
      match digits x n k with
      | Some v => v
      | None => shortest fuel x n (k + 1)
      end
  end.

(** The decimal that [JSON.stringify] writes for a positive finite number
    (Number::toString of ECMAScript): of the decimals that read back as [x],
    one with the fewest digits; 17 digits always suffice. *)
Definition Number_toString (x : float) : Q :=
  Qred (shortest 17 x (decimal_exponent 700 0 (to_Q x)) 1).

(** A column [numeric(p, 2)] rounds the decimal it is given to two decimals,
    a tie away from zero. *)
Definition numeric_2 (q : Q) : Q :=
  if Qle_bool 0 q then Qfloor (q * 100 + (1 # 2)) # 100
  else - (Qfloor (- q * 100 + (1 # 2)) # 100).

(** The four amounts of the record the [orders] table holds for the row of
    lines 131-141. *)
Record Amounts := {
  stored_subtotal : Q;
  stored_tax : Q;
  stored_delivery_fee : Q;
  stored_total : Q }.

Definition stored_amounts (t : Totals) : Amounts :=
  {| stored_subtotal := numeric_2 (Number_toString (subtotal t));
     stored_tax := numeric_2 (Number_toString (tax t));
     stored_delivery_fee := numeric_2 (Number_toString (deliveryFee t));
     stored_total := numeric_2 (Number_toString (orderTotal t)) |}.

(** [8.1] in JavaScript: the total of a cart of one item at 8.10. *)
Definition eight_point_one : float := 0x1.0333333333333p+3%float.

Definition stored_8_10 : Amounts := stored_amounts (totals eight_point_one).

End Binary64.

(** ** Facts on the haversine term *)

Lemma haversine_a_spec lat1 lon1 lat2 lon2 :
  haversine_a lat1 lon1 lat2 lon2 = HaversineSpec.a lat1 lon1 lat2 lon2.
Proof.
  unfold haversine_a, HaversineSpec.a, HaversineSpec.radians.
  replace ((lat2 - lat1) * PI / 180) with ((lat2 - lat1) * (PI / 180)) by field.
  replace ((lon2 - lon1) * PI / 180) with ((lon2 - lon1) * (PI / 180)) by field.
  replace (lat1 * PI / 180) with (lat1 * (PI / 180)) by field.
  replace (lat2 * PI / 180) with (lat2 * (PI / 180)) by field.
  ring.
Qed.

Lemma haversine_a_sym lat1 lon1 lat2 lon2 :
  haversine_a lat1 lon1 lat2 lon2 = haversine_a lat2 lon2 lat1 lon1.
Proof.
  unfold haversine_a.
  replace ((lat1 - lat2) * PI / 180 / 2) with (- ((lat2 - lat1) * PI / 180 / 2))
    by field.
  replace ((lon1 - lon2) * PI / 180 / 2) with (- ((lon2 - lon1) * PI / 180 / 2))
    by field.
  rewrite !sin_neg. ring.
Qed.

Lemma haversine_a_same lat lon : haversine_a lat lon lat lon = 0.
Proof.
  unfold haversine_a.
  replace ((lat - lat) * PI / 180 / 2) with 0 by field.
  replace ((lon - lon) * PI / 180 / 2) with 0 by field.
  rewrite sin_0. ring.
Qed.

(** [a] lies in [[0, 1]] whatever the four inputs: both square roots of
    [calculateDistance] are taken of non-negative numbers. *)
Lemma haversine_a_range lat1 lon1 lat2 lon2 :
  0 <= haversine_a lat1 lon1 lat2 lon2 <= 1.
Proof.
  unfold haversine_a.
  set (p1 := lat1 * PI / 180). set (p2 := lat2 * PI / 180).
  set (s := sin ((lon2 - lon1) * PI / 180 / 2)).
  replace ((lat2 - lat1) * PI / 180 / 2) with ((p2 - p1) / 2)
    by (unfold p1, p2; field).
  assert (Hd : sin ((p2 - p1) / 2) * sin ((p2 - p1) / 2) = (1 - cos (p2 - p1)) / 2).
  { replace (p2 - p1) with (2 * ((p2 - p1) / 2)) at 3 by field.
    rewrite cos_2a_sin. field. }
  assert (Hc : cos p1 * cos p2 = (cos (p2 - p1) + cos (p2 + p1)) / 2).
  { rewrite cos_minus, cos_plus. field. }
  rewrite Hd, Hc.
  pose proof (COS_bound (p2 - p1)) as [Hm1 Hm2].
  pose proof (COS_bound (p2 + p1)) as [Hp1 Hp2].
  pose proof (SIN_bound ((lon2 - lon1) * PI / 180 / 2)) as [Hs1 Hs2].
  fold s in Hs1, Hs2.
  assert (Ht : 0 <= s * s <= 1) by nra.
  set (t := s * s) in *.
  replace ((cos (p2 - p1) + cos (p2 + p1)) / 2 * s * s)
    with ((cos (p2 - p1) + cos (p2 + p1)) / 2 * t) by (unfold t; ring).
  split; nra.
Qed.

(** ** The angle of [calculateDistance] *)

Lemma atan2_sqrt_asin a :
  0 <= a <= 1 ->
  Math.atan2 (Math.sqrt a) (Math.sqrt (1 - a)) = asin (sqrt a).
Proof.
  intros [Ha0 Ha1]. unfold Math.atan2, Math.sqrt.
  destruct (Req_dec a 1) as [-> | Hne].
  - replace (1 - 1) with 0 by ring. rewrite sqrt_0, sqrt_1, asin_1.
    destruct (Rlt_dec 0 0) as [H | _]; [lra |].
    destruct (Rlt_dec 0 0) as [H | _]; [lra |].
    destruct (Rlt_dec 0 1) as [_ | H]; [reflexivity | lra].
  - assert (Hlt : a < 1) by lra.
    assert (Hpos : 0 < sqrt (1 - a)) by (apply sqrt_lt_R0; lra).
    destruct (Rlt_dec 0 (sqrt (1 - a))) as [_ | H]; [| contradiction].
    assert (Hs1 : sqrt a < 1).
    { rewrite <- sqrt_1. apply sqrt_lt_1_alt. lra. }
    pose proof (sqrt_pos a) as Hs0.
    rewrite asin_atan by lra.
    unfold Rsqr. rewrite sqrt_sqrt by assumption. reflexivity.
Qed.

Lemma calculateDistance_asin lat1 lon1 lat2 lon2 :
  calculateDistance lat1 lon1 lat2 lon2 =
  6371 * (2 * asin (sqrt (haversine_a lat1 lon1 lat2 lon2))).
Proof.
  unfold calculateDistance.
  rewrite atan2_sqrt_asin by apply haversine_a_range. reflexivity.
Qed.

Lemma asin_sqrt_nonneg a : 0 <= a <= 1 -> 0 <= asin (sqrt a) <= PI / 2.
Proof.
  intros [Ha0 Ha1]. split; [| apply asin_bound].
  destruct (Req_dec a 0) as [-> | Hne].
  - rewrite sqrt_0, asin_0. lra.
  - assert (H0 : 0 < sqrt a) by (apply sqrt_lt_R0; lra).
    apply Rnot_lt_le. intros Hneg.
    assert (Hs : sin (asin (sqrt a)) = sqrt a).
    { apply sin_asin. split; [lra |]. rewrite <- sqrt_1. apply sqrt_le_1_alt. lra. }
    pose proof (asin_bound (sqrt a)) as [Hb _].
    pose proof PI_RGT_0 as Hpi.
    assert (Hsn : sin (asin (sqrt a)) < 0).
    { apply sin_lt_0_var; lra. }
    lra.
Qed.

Lemma asin_sqrt_eq_0 a : 0 <= a <= 1 -> (asin (sqrt a) = 0 <-> a = 0).
Proof.
  intros [Ha0 Ha1]. split.
  - intros Hz.
    assert (Hs : sin (asin (sqrt a)) = sqrt a).
    { apply sin_asin. pose proof (sqrt_pos a). split; [lra |].
      rewrite <- sqrt_1. apply sqrt_le_1_alt. lra. }
    rewrite Hz, sin_0 in Hs. symmetry in Hs.
    apply sqrt_eq_0 in Hs; lra.
  - intros ->. rewrite sqrt_0. apply asin_0.
Qed.

Lemma calculateDistance_nonneg lat1 lon1 lat2 lon2 :
  0 <= calculateDistance lat1 lon1 lat2 lon2.
Proof.
  rewrite calculateDistance_asin.
  pose proof (asin_sqrt_nonneg _ (haversine_a_range lat1 lon1 lat2 lon2)).
  lra.
Qed.

Lemma calculateDistance_eq_0 lat1 lon1 lat2 lon2 :
  calculateDistance lat1 lon1 lat2 lon2 = 0 <->
  haversine_a lat1 lon1 lat2 lon2 = 0.
Proof.
  rewrite calculateDistance_asin.
  rewrite <- (asin_sqrt_eq_0 _ (haversine_a_range lat1 lon1 lat2 lon2)).
  split; intros H; lra.
Qed.

(** ** Distance validator: the formula, symmetry *)

(** C1: for every pair of points, [calculateDistance] is the haversine formula
    of the specification: its [a] is
    [sin²(Δlat/2) + cos(lat1)·cos(lat2)·sin²(Δlng/2)] on the differences and
    latitudes in radians, and it returns [2·R·atan2(√a, √(1−a))] with
    [R = 6371]. *)
Theorem calculateDistance_is_haversine :
  forall lat1 lng1 lat2 lng2 : R,
    haversine_a lat1 lng1 lat2 lng2 = HaversineSpec.a lat1 lng1 lat2 lng2 /\
    calculateDistance lat1 lng1 lat2 lng2 =
      HaversineSpec.distance lat1 lng1 lat2 lng2 /\
    HaversineSpec.earth_radius = 6371.
Proof.
  intros lat1 lng1 lat2 lng2. split; [apply haversine_a_spec |].
  split; [| reflexivity].
  unfold calculateDistance, HaversineSpec.distance, HaversineSpec.earth_radius.
  rewrite <- haversine_a_spec. cbv zeta. ring.
Qed.

(** C7: the distance is symmetric in its two points, and the distance of a
    point to itself is zero. *)
Theorem calculateDistance_symmetric_and_zero_on_same :
  (forall lat1 lng1 lat2 lng2 : R,
      calculateDistance lat1 lng1 lat2 lng2 =
      calculateDistance lat2 lng2 lat1 lng1) /\
  (forall lat lng : R, calculateDistance lat lng lat lng = 0).
Proof.
  split.
  - intros. unfold calculateDistance.
    rewrite (haversine_a_sym lat1 lng1 lat2 lng2). reflexivity.
  - intros. apply calculateDistance_eq_0, haversine_a_same.
Qed.

(** ** Distance validator: sign and zero *)

(** C8: for every pair of coordinate inputs the distance is never negative,
    and it is zero whenever the two inputs have the same latitude and the
    same longitude.  (The converse is not stated: see below.) *)
Theorem calculateDistance_never_negative_and_zero_on_same :
  forall lat1 lng1 lat2 lng2 : R,
    ~ calculateDistance lat1 lng1 lat2 lng2 < 0 /\
    (lat1 = lat2 /\ lng1 = lng2 ->
     calculateDistance lat1 lng1 lat2 lng2 = 0).
Proof.
  intros lat1 lng1 lat2 lng2. split.
  - pose proof (calculateDistance_nonneg lat1 lng1 lat2 lng2). lra.
  - intros [Hlat Hlng]. subst lat2 lng2.
    apply calculateDistance_eq_0, haversine_a_same.
Qed.

Section Binary64_distance.
Import PrimFloat.

(** The three values fixed at zero are consistent: the first terms of the
    series of the three functions have them. *)
Lemma Math_values_at_zero_are_consistent : inhabited Binary64.Math.
Proof.
  constructor.
  refine {| Binary64.sin := fun x => x;
            Binary64.cos := fun x => (1 - x * x / 2)%float;
            Binary64.atan2 := fun y x => (y / x)%float |}; reflexivity.
Qed.

(** Evaluates the closed arguments of the three [Math] functions. *)
Ltac eval_closed M x :=
  lazymatch x with
  | context [M] => fail
  | _ => let v := eval vm_compute in x in progress change x with v
  end.

Ltac eval_Math_arguments M :=
  repeat match goal with
  | |- context [Binary64.sin M ?x] => eval_closed M x
  | |- context [Binary64.cos M ?x] => eval_closed M x
  | |- context [Binary64.atan2 M ?y ?x] => eval_closed M y
  | |- context [Binary64.atan2 M ?y ?x] => eval_closed M x
  end.

(** C8, as stated, fails: the distance from the point (0, 0) to the point
    (5e-324, 0), whose latitude is the smallest positive binary64 number, is
    exactly zero, whatever [Math.sin], [Math.cos] and [Math.atan2] return
    away from zero: the difference of the latitudes in radians rounds to
    zero. *)
Lemma calculateDistance_zero_on_different_inputs :
  (forall M : Binary64.Math,
      Binary64.calculateDistance M
        Binary64.zero Binary64.zero Binary64.smallest Binary64.zero =
      Binary64.zero) /\
  (Binary64.zero =? Binary64.smallest)%float = false /\
  (Binary64.zero <? Binary64.smallest)%float = true.
Proof.
  split; [| split; reflexivity].
  intros M. unfold Binary64.calculateDistance. cbv zeta.
  eval_Math_arguments M.
  rewrite (Binary64.sin_zero M), (Binary64.cos_zero M).
  eval_Math_arguments M.
  rewrite (Binary64.atan2_zero M).
  reflexivity.
Qed.

End Binary64_distance.

(** ** Numeric bounds *)

Lemma PI_bounds : 3.1415 < PI < 3.1421.
Proof.
  pose proof (PI_2_3_7_ineq 1) as H.
  unfold PI_2_3_7_tg, tg_alt, Ratan_seq in H. simpl in H.
  lra.
Qed.

Lemma sin_taylor x : 0 <= x <= 4 -> x - x ^ 3 / 6 <= sin x <= x.
Proof.
  intros [H0 H4].
  destruct (pre_sin_bound x 0 H0 H4) as [Hl _].
  unfold sin_approx, sin_term in Hl. simpl in Hl.
  split; [lra |].
  destruct (Req_dec x 0) as [-> | Hne]; [rewrite sin_0; lra |].
  left. apply sin_lt_x. lra.
Qed.

Lemma cos_taylor x :
  -2 <= x <= 2 -> 1 - x ^ 2 / 2 <= cos x <= 1 - x ^ 2 / 2 + x ^ 4 / 24.
Proof.
  intros [Hl Hu].
  destruct (pre_cos_bound x 0 Hl Hu) as [H1 H2].
  unfold cos_approx, cos_term in H1, H2. simpl in H1, H2.
  split; lra.
Qed.

(** Enclosures of [sin] and [cos] on an interval of small positive angles. *)
Lemma sin_enclosure lo hi x :
  0 <= lo -> lo <= x <= hi -> hi <= 4 ->
  lo - hi ^ 3 / 6 <= sin x <= hi.
Proof.
  intros H0 [Hl Hu] H4.
  destruct (sin_taylor x) as [Hs1 Hs2]; [lra |].
  assert (Hp : x ^ 3 <= hi ^ 3) by (apply pow_incr; lra).
  lra.
Qed.

Lemma cos_enclosure lo hi x :
  0 <= lo -> lo <= x <= hi -> hi <= 2 ->
  1 - hi ^ 2 / 2 <= cos x <= 1 - lo ^ 2 / 2 + hi ^ 4 / 24.
Proof.
  intros H0 [Hl Hu] H2.
  destruct (cos_taylor x) as [Hc1 Hc2]; [lra |].
  assert (Hp2 : x ^ 2 <= hi ^ 2) by (apply pow_incr; lra).
  assert (Hq2 : lo ^ 2 <= x ^ 2) by (apply pow_incr; lra).
  assert (Hp4 : x ^ 4 <= hi ^ 4) by (apply pow_incr; lra).
  lra.
Qed.

(** Enclosures of the angle [asin (sqrt a)]. *)
Lemma asin_sqrt_lower l a :
  0 <= l -> l ^ 2 <= a -> a <= 1 -> l <= asin (sqrt a).
Proof.
  intros Hl Hla Ha1.
  assert (Ha0 : 0 <= a) by (pose proof (pow2_ge_0 l); lra).
  assert (Hls : l <= sqrt a).
  { rewrite <- (sqrt_pow2 l Hl). apply sqrt_le_1_alt. assumption. }
  destruct (asin_sqrt_nonneg a (conj Ha0 Ha1)) as [Ht0 Ht1].
  assert (Hs : sin (asin (sqrt a)) = sqrt a).
  { apply sin_asin. pose proof (sqrt_pos a). split; [lra |].
    rewrite <- sqrt_1. apply sqrt_le_1_alt. lra. }
  pose proof PI_bounds as [_ Hpi].
  destruct (sin_taylor (asin (sqrt a))) as [_ Hsx]; [lra |].
  lra.
Qed.

Lemma asin_sqrt_upper u a :
  0 <= u <= 1 -> 0 <= a -> a <= (u - u ^ 3 / 6) ^ 2 -> asin (sqrt a) <= u.
Proof.
  intros [Hu0 Hu1] Ha0 Hau.
  destruct (sin_taylor u) as [Hsl Hsu]; [lra |].
  assert (Hpoly : 0 <= u - u ^ 3 / 6) by nra.
  assert (Hsa : sqrt a <= u - u ^ 3 / 6).
  { rewrite <- (sqrt_pow2 (u - u ^ 3 / 6) Hpoly). apply sqrt_le_1_alt.
    assumption. }
  assert (Ha1 : a <= 1).
  { apply Rle_trans with (1 := Hau). nra. }
  destruct (asin_sqrt_nonneg a (conj Ha0 Ha1)) as [Ht0 Ht1].
  assert (Hs : sin (asin (sqrt a)) = sqrt a).
  { apply sin_asin. pose proof (sqrt_pos a). split; [lra |].
    rewrite <- sqrt_1. apply sqrt_le_1_alt. lra. }
  pose proof PI_bounds as [Hpi _].
  apply Rnot_lt_le. intros Hlt.
  assert (Hinc : sin u < sin (asin (sqrt a))).
  { apply sin_increasing_1; lra. }
  lra.
Qed.

(** The haversine term between the restaurant and the fixture point
    [(13.15, 80.25)]. *)
Lemma fixture_a_bounds :
  0.0000004189726 <= haversine_a 13.0878 80.2085 13.15 80.25
                  <= 0.0000004191651.
Proof.
  pose proof PI_bounds as [Hpl Hpu].
  unfold haversine_a. cbv zeta.
  set (x := (13.15 - 13.0878) * PI / 180 / 2).
  set (y := (80.25 - 80.2085) * PI / 180 / 2).
  set (p1 := 13.0878 * PI / 180). set (p2 := 13.15 * PI / 180).
  assert (Hx : 0.0005427813 <= x <= 0.0005428851) by (unfold x; lra).
  assert (Hy : 0.0003621451 <= y <= 0.0003622144) by (unfold y; lra).
  assert (Hp1 : 0.2284184 <= p1 <= 0.2284621) by (unfold p1; lra).
  assert (Hp2 : 0.2295040 <= p2 <= 0.2295479) by (unfold p2; lra).
  destruct (sin_enclosure 0.0005427813 0.0005428851 x) as [Hsx1 Hsx2];
    [lra | exact Hx | lra |].
  destruct (sin_enclosure 0.0003621451 0.0003622144 y) as [Hsy1 Hsy2];
    [lra | exact Hy | lra |].
  destruct (cos_enclosure 0.2284184 0.2284621 p1) as [Hc11 Hc12];
    [lra | exact Hp1 | lra |].
  destruct (cos_enclosure 0.2295040 0.2295479 p2) as [Hc21 Hc22];
    [lra | exact Hp2 | lra |].
  assert (Bsx : 0.0005427812 <= sin x <= 0.0005428851) by lra.
  assert (Bsy : 0.0003621450 <= sin y <= 0.0003622144) by lra.
  assert (Bc1 : 0.9739025 <= cos p1 <= 0.9740261) by lra.
  assert (Bc2 : 0.9736538 <= cos p2 <= 0.9737797) by lra.
  clear Hsx1 Hsx2 Hsy1 Hsy2 Hc11 Hc12 Hc21 Hc22 Hx Hy Hp1 Hp2 Hpl Hpu.
  generalize dependent (sin x). generalize dependent (sin y).
  generalize dependent (cos p1). generalize dependent (cos p2).
  clear x y p1 p2. intros c2 Bc2 c1 Bc1 sy Bsy sx Bsx.
  assert (Lxx : 0.0005427812 * 0.0005427812 <= sx * sx)
    by (apply Rmult_le_compat; lra).
  assert (Uxx : sx * sx <= 0.0005428851 * 0.0005428851)
    by (apply Rmult_le_compat; lra).
  assert (Lcc : 0.9739025 * 0.9736538 <= c1 * c2)
    by (apply Rmult_le_compat; lra).
  assert (Ucc : c1 * c2 <= 0.9740261 * 0.9737797)
    by (apply Rmult_le_compat; lra).
  assert (Lccs : 0.9739025 * 0.9736538 * 0.0003621450 <= c1 * c2 * sy)
    by (apply Rmult_le_compat; lra).
  assert (Uccs : c1 * c2 * sy <= 0.9740261 * 0.9737797 * 0.0003622144)
    by (apply Rmult_le_compat; lra).
  assert (Lccss :
    0.9739025 * 0.9736538 * 0.0003621450 * 0.0003621450 <= c1 * c2 * sy * sy)
    by (apply Rmult_le_compat; lra).
  assert (Uccss :
    c1 * c2 * sy * sy <= 0.9740261 * 0.9737797 * 0.0003622144 * 0.0003622144)
    by (apply Rmult_le_compat; lra).
  lra.
Qed.

(** C9: the restaurant is at distance zero of itself, and the fixture point
    [(13.15, 80.25)] is between 8.24 and 8.25 km away from it. *)
Theorem fixture_distances :
  calculateDistance 13.0878 80.2085 13.0878 80.2085 = 0 /\
  8.24 < calculateDistance 13.0878 80.2085 13.15 80.25 < 8.25.
Proof.
  split; [apply calculateDistance_eq_0, haversine_a_same |].
  rewrite calculateDistance_asin.
  destruct fixture_a_bounds as [Hal Hau].
  destruct (haversine_a_range 13.0878 80.2085 13.15 80.25) as [Ha0 Ha1].
  assert (Hl : 0.000647 <= asin (sqrt (haversine_a 13.0878 80.2085 13.15 80.25))).
  { apply asin_sqrt_lower; lra. }
  assert (Hu : asin (sqrt (haversine_a 13.0878 80.2085 13.15 80.25)) <= 0.00064745).
  { apply asin_sqrt_upper; lra. }
  lra.
Qed.

(** C9, as stated, fails: the fixture point is more than 8 km away, outside
    the range 7 to 8 km. *)
Lemma fixture_distance_not_within_7_and_8 :
  ~ (calculateDistance 13.0878 80.2085 13.0878 80.2085 = 0 /\
     7 <= calculateDistance 13.0878 80.2085 13.15 80.25 <= 8).
Proof.
  intros [_ [_ Hle]].
  rewrite calculateDistance_asin in Hle.
  destruct fixture_a_bounds as [Hal _].
  destruct (haversine_a_range 13.0878 80.2085 13.15 80.25) as [_ Ha1].
  assert (Hl : 0.000647 <= asin (sqrt (haversine_a 13.0878 80.2085 13.15 80.25))).
  { apply asin_sqrt_lower; lra. }
  lra.
Qed.

(** ** Pricing *)

(** C3: for every cart the subtotal is the sum of price × quantity over its
    lines, the tax is 5% of the subtotal, the delivery fee is 30 and the
    total is their sum; the cart of two lines at 80 and one at 150 gives
    310, 15.50, 30 and 355.50. *)
Theorem pricing_of_cart :
  (forall cart_items : list CartItem.t,
      let t := totals (CartContext.total cart_items) in
      subtotal t =
        fold_right Rplus 0
          (map (fun i => CartItem.price i * CartItem.quantity i) cart_items) /\
      tax t = subtotal t * 0.05 /\
      deliveryFee t = 30 /\
      orderTotal t = subtotal t + tax t + deliveryFee t) /\
  (let t := totals (CartContext.total example_cart) in
   map CartItem.price example_cart = [80; 150] /\
   map CartItem.quantity example_cart = [2; 1] /\
   subtotal t = 310 /\ tax t = 15.50 /\ deliveryFee t = 30 /\
   orderTotal t = 355.50).
Proof.
  split.
  - intros cart_items t. unfold t, totals. cbn [subtotal tax deliveryFee orderTotal].
    repeat split; reflexivity.
  - unfold totals, CartContext.total, example_cart.
    cbn [subtotal tax deliveryFee orderTotal map fold_right
         CartItem.price CartItem.quantity].
    repeat split; lra.
Qed.

(** ** Running the handler *)

Lemma truthy_nonzero x : x <> 0 -> truthy x = true.
Proof. intros H. unfold truthy. destruct (Req_dec_T x 0); [contradiction | reflexivity]. Qed.

Lemma truthy_zero : truthy 0 = false.
Proof. unfold truthy. destruct (Req_dec_T 0 0) as [_ | H]; [reflexivity | now elim H]. Qed.

(** Past the checks, the handler is the [try] statement between the two
    [setLoading]. *)
Lemma handlePlaceOrder_checked b c u lat lng :
  user c = Some u -> latitude c = Some lat -> longitude c = Some lng ->
  lat <> 0 -> lng <> 0 ->
  addressSchema.safeParse (label c) (addressLine c) lat lng = [] ->
  calculateDistance RESTAURANT_LAT RESTAURANT_LNG lat lng
    <= MAX_DELIVERY_DISTANCE ->
  handlePlaceOrder b c =
    (setLoading true ;;
     try_catch_finally
       (place_order_try b c u lat lng
          (calculateDistance RESTAURANT_LAT RESTAURANT_LNG lat lng))
       place_order_catch
       (setLoading false)).
Proof.
  intros Hu Hlat Hlng Hlat0 Hlng0 Hparse Hd.
  unfold handlePlaceOrder. rewrite Hu, Hlat, Hlng.
  rewrite (truthy_nonzero _ Hlat0), (truthy_nonzero _ Hlng0). cbn [negb orb].
  rewrite Hparse. cbv zeta.
  destruct (Rgt_dec _ _) as [Hgt | _]; [lra | reflexivity].
Qed.

(** Every check that fails ends the handler on one error toast and leaves
    the rest of the world as it was. *)
Lemma toast_error_run m w :
  toast.error m w =
  (Normal tt,
   {| store := store w; calls := calls w;
      toasts := toasts w ++ [toast_error m];
      cart := cart w; location := location w; loading := loading w |}).
Proof. reflexivity. Qed.

Lemma handlePlaceOrder_no_location b c :
  truthy_opt (latitude c) = false \/ truthy_opt (longitude c) = false ->
  handlePlaceOrder b c = toast.error (Text "Please provide delivery location").
Proof.
  intros H. unfold handlePlaceOrder.
  destruct (user c) as [u |]; [| reflexivity].
  destruct (latitude c) as [lat |]; [| reflexivity].
  destruct (longitude c) as [lng |]; [| reflexivity].
  cbn [truthy_opt] in H.
  destruct H as [H | H]; rewrite H; cbn [negb orb]; [reflexivity |].
  rewrite orb_true_r. reflexivity.
Qed.

(** A destination beyond the limit never gets past the checks. *)
Lemma handlePlaceOrder_out_of_range b c lat lng :
  latitude c = Some lat -> longitude c = Some lng ->
  MAX_DELIVERY_DISTANCE <
    calculateDistance RESTAURANT_LAT RESTAURANT_LNG lat lng ->
  exists m,
    handlePlaceOrder b c = toast.error m /\
    (user c <> None -> lat <> 0 -> lng <> 0 ->
     addressSchema.safeParse (label c) (addressLine c) lat lng = [] ->
     m = OutOfRange MAX_DELIVERY_DISTANCE
           (calculateDistance RESTAURANT_LAT RESTAURANT_LNG lat lng)).
Proof.
  intros Hlat Hlng Hfar. unfold handlePlaceOrder. rewrite Hlat, Hlng.
  destruct (user c) as [u |].
  2: { eexists; split; [reflexivity | intros H; now elim H]. }
  unfold truthy.
  destruct (Req_dec_T lat 0) as [Hz | Hnz]; cbn [negb orb].
  { eexists; split; [reflexivity | intros _ H; now elim H]. }
  destruct (Req_dec_T lng 0) as [Hz' | Hnz']; cbn [negb orb].
  { eexists; split; [reflexivity | intros _ _ H; now elim H]. }
  destruct (addressSchema.safeParse _ _ _ _) as [| issue rest].
  - cbv zeta. destruct (Rgt_dec _ _) as [_ | Hn]; [| unfold Rgt in Hn; lra].
    eexists; split; reflexivity.
  - eexists; split; [reflexivity | intros _ _ _ H; discriminate H].
Qed.

(** A point one degree north of the restaurant is more than 100 km away. *)
Lemma one_degree_north_is_far :
  100 < calculateDistance RESTAURANT_LAT RESTAURANT_LNG 14.0878 80.2085.
Proof.
  rewrite calculateDistance_asin.
  destruct (haversine_a_range RESTAURANT_LAT RESTAURANT_LNG 14.0878 80.2085)
    as [_ Ha1].
  assert (Hal : 0.0086 ^ 2 <=
                haversine_a RESTAURANT_LAT RESTAURANT_LNG 14.0878 80.2085).
  { unfold haversine_a, RESTAURANT_LAT, RESTAURANT_LNG. cbv zeta.
    replace ((80.2085 - 80.2085) * PI / 180 / 2) with 0 by field.
    rewrite sin_0.
    pose proof PI_bounds as [Hpl Hpu].
    set (x := (14.0878 - 13.0878) * PI / 180 / 2).
    assert (Hx : 0.0087 <= x <= 0.0088) by (unfold x; lra).
    destruct (sin_enclosure 0.0087 0.0088 x) as [Hs _]; [lra | exact Hx | lra |].
    assert (Hs' : 0.0086 <= sin x) by lra.
    assert (Hsq : 0.0086 * 0.0086 <= sin x * sin x)
      by (apply Rmult_le_compat; lra).
    lra. }
  assert (Hl : 0.0086 <= asin (sqrt
            (haversine_a RESTAURANT_LAT RESTAURANT_LNG 14.0878 80.2085))).
  { apply asin_sqrt_lower; lra. }
  lra.
Qed.

(** ** The checks before submission *)

(** C10: when the latitude or the longitude is unset or exactly [0], the
    handler shows 'Please provide delivery location' and does nothing else:
    no request is sent, whatever the address fields and the distance are;
    the button of the page is disabled in the same cases. *)
Theorem zero_or_unset_coordinate_is_rejected :
  forall (b : Backend) (c : Checkout) (w : World),
    latitude c = None \/ latitude c = Some 0 \/
    longitude c = None \/ longitude c = Some 0 ->
    handlePlaceOrder b c w =
      (Normal tt,
       {| store := store w; calls := calls w;
          toasts := toasts w ++
                    [toast_error (Text "Please provide delivery location")];
          cart := cart w; location := location w; loading := loading w |}) /\
    (forall l : bool, placeOrder_disabled l c = true).
Proof.
  intros b c w H.
  assert (Hf : truthy_opt (latitude c) = false \/
               truthy_opt (longitude c) = false).
  { destruct H as [H | [H | [H | H]]]; rewrite H; cbn [truthy_opt];
      rewrite ?truthy_zero; auto. }
  split.
  - rewrite (handlePlaceOrder_no_location b c Hf). apply toast_error_run.
  - intros l. unfold placeOrder_disabled.
    destruct Hf as [Hf | Hf]; rewrite Hf; cbn [negb];
      rewrite ?orb_true_r; reflexivity.
Qed.

Lemma zero_or_unset_coordinate_is_rejected_witness :
  handlePlaceOrder accepting_backend
    (render example_world (Some example_user) "Home"
       "12 Main Street, Anna Nagar" (Some 0) (Some 80.2085) "")
    example_world =
  (Normal tt,
   {| store := store example_world; calls := calls example_world;
      toasts := toasts example_world ++
                [toast_error (Text "Please provide delivery location")];
      cart := cart example_world; location := location example_world;
      loading := loading example_world |}).
Proof.
  apply (zero_or_unset_coordinate_is_rejected accepting_backend
           (render example_world (Some example_user) "Home"
              "12 Main Street, Anna Nagar" (Some 0) (Some 80.2085) "")
           example_world).
  right; left. reflexivity.
Defined.

(** C2: a destination more than 10 km from the restaurant is refused by one
    error toast, before any request: the store, the request log, the cart
    and the route are as they were.  The toast is that of the first check
    that fails: 'Please provide delivery location' when nobody is signed in
    or a coordinate is [0]; otherwise the first issue of the address
    validation when there is one; otherwise the message that reports the
    limit and the computed distance. *)
Theorem out_of_range_destination_is_refused :
  forall (b : Backend) (c : Checkout) (w : World) (lat lng : R),
    latitude c = Some lat -> longitude c = Some lng ->
    MAX_DELIVERY_DISTANCE <
      calculateDistance RESTAURANT_LAT RESTAURANT_LNG lat lng ->
    exists m : Message,
      handlePlaceOrder b c w =
        (Normal tt,
         {| store := store w; calls := calls w;
            toasts := toasts w ++ [toast_error m];
            cart := cart w; location := location w; loading := loading w |}) /\
      (user c = None \/ lat = 0 \/ lng = 0 ->
       m = Text "Please provide delivery location") /\
      (user c <> None -> lat <> 0 -> lng <> 0 ->
       forall (issue : string) (rest : list string),
         addressSchema.safeParse (label c) (addressLine c) lat lng =
           issue :: rest ->
         m = Text issue) /\
      (user c <> None -> lat <> 0 -> lng <> 0 ->
       addressSchema.safeParse (label c) (addressLine c) lat lng = [] ->
       m = OutOfRange MAX_DELIVERY_DISTANCE
             (calculateDistance RESTAURANT_LAT RESTAURANT_LNG lat lng)).
Proof.
  intros b c w lat lng Hlat Hlng Hfar.
  unfold handlePlaceOrder. rewrite Hlat, Hlng.
  destruct (user c) as [u |].
  2: { eexists. split; [apply toast_error_run |].
       split; [reflexivity |].
       split; intros H; now elim H. }
  unfold truthy.
  destruct (Req_dec_T lat 0) as [Hz | Hnz]; cbn [negb orb].
  { eexists. split; [apply toast_error_run |].
    split; [reflexivity |].
    split; intros _ H; now elim H. }
  destruct (Req_dec_T lng 0) as [Hz' | Hnz']; cbn [negb orb].
  { eexists. split; [apply toast_error_run |].
    split; [reflexivity |].
    split; intros _ _ H; now elim H. }
  destruct (addressSchema.safeParse _ _ _ _) as [| issue rest].
  - cbv zeta. destruct (Rgt_dec _ _) as [_ | Hn]; [| unfold Rgt in Hn; lra].
    eexists. split; [apply toast_error_run |].
    split; [| split].
    + intros [H | [H | H]]; [discriminate H | contradiction | contradiction].
    + intros _ _ _ issue rest H. discriminate H.
    + reflexivity.
  - eexists. split; [apply toast_error_run |].
    split; [| split].
    + intros [H | [H | H]]; [discriminate H | contradiction | contradiction].
    + intros _ _ _ issue' rest' H. injection H as Hi _. now rewrite Hi.
    + intros _ _ _ H. discriminate H.
Qed.

Lemma out_of_range_destination_is_refused_witness :
  exists m : Message,
    handlePlaceOrder accepting_backend
      (render example_world (Some example_user) "Home"
         "12 Main Street, Anna Nagar" (Some 14.0878) (Some 80.2085) "")
      example_world =
    (Normal tt,
     {| store := store example_world; calls := calls example_world;
        toasts := toasts example_world ++ [toast_error m];
        cart := cart example_world; location := location example_world;
        loading := loading example_world |}) /\
    m = OutOfRange MAX_DELIVERY_DISTANCE
          (calculateDistance RESTAURANT_LAT RESTAURANT_LNG 14.0878 80.2085).
Proof.
  destruct (out_of_range_destination_is_refused accepting_backend
              (render example_world (Some example_user) "Home"
                 "12 Main Street, Anna Nagar" (Some 14.0878) (Some 80.2085) "")
              example_world 14.0878 80.2085)
    as [m [Hrun [_ [_ Hm]]]].
  - reflexivity.
  - reflexivity.
  - pose proof one_degree_north_is_far. unfold MAX_DELIVERY_DISTANCE. lra.
  - exists m. split; [exact Hrun |].
    apply Hm.
    + discriminate.
    + lra.
    + lra.
    + reflexivity.
Defined.

(** C2, as stated, fails: a destination more than 10 km away with an empty
    address label is refused with 'Label is required', not with a message
    that reports the distance. *)
Lemma far_destination_with_empty_label_is_not_told_the_distance :
  ~ (MAX_DELIVERY_DISTANCE <
       calculateDistance RESTAURANT_LAT RESTAURANT_LNG 14.0878 80.2085 ->
     exists d : R,
       toasts (snd (handlePlaceOrder accepting_backend
                      (render example_world (Some example_user) ""
                         "12 Main Street, Anna Nagar"
                         (Some 14.0878) (Some 80.2085) "")
                      example_world)) =
       [toast_error (OutOfRange MAX_DELIVERY_DISTANCE d)]).
Proof.
  intros H. destruct H as [d Hd].
  { pose proof one_degree_north_is_far. unfold MAX_DELIVERY_DISTANCE. lra. }
  unfold handlePlaceOrder, render in Hd.
  cbn [user latitude longitude label addressLine] in Hd.
  rewrite !truthy_nonzero in Hd by lra.
  cbn in Hd. discriminate Hd.
Qed.

(** ** The submission sequence *)

Ltac unfold_handler :=
  unfold place_order_try, place_order_catch, try_catch_finally, data_id, bind,
    ret, throw, supabase.insert_address, supabase.insert_order,
    supabase.insert_order_items, toast.error, toast.success, setLoading,
    clearCart, navigate, modify, show, log_call, set_store, totals, render.

Ltac reduce_world :=
  cbn [fst snd store calls toasts cart location loading
       addresses orders order_items
       items total user label addressLine latitude longitude notes
       subtotal tax deliveryFee orderTotal app].

(** C5: when the checks pass and the backend accepts the three requests, the
    handler sends exactly the address, the order and the order items, in
    this order; the order refers to the new address and carries the totals
    of the pricing formula; there is one order item per line of the cart,
    with the line's quantity, price and title and the id of the new order;
    then the cart is emptied and the route is the tracking page of the new
    order. *)
Theorem successful_submission :
  forall (b : Backend) (c : Checkout) (w : World) (u : User.t)
         (lat lng : R) (address_id order_id : string),
    let distance :=
      calculateDistance RESTAURANT_LAT RESTAURANT_LNG lat lng in
    let address :=
      {| Address.user_id := User.id u; Address.label := label c;
         Address.address_line := addressLine c;
         Address.latitude := lat; Address.longitude := lng |} in
    let order :=
      {| Order.user_id := User.id u; Order.address_id := address_id;
         Order.subtotal := total c; Order.tax := total c * 0.05;
         Order.delivery_fee := 30;
         Order.total := total c + total c * 0.05 + 30;
         Order.distance_km := distance; Order.notes := notes c;
         Order.status := placed |} in
    let lines :=
      map (fun item =>
             {| OrderItem.order_id := order_id;
                OrderItem.menu_item_id := CartItem.id item;
                OrderItem.quantity := CartItem.quantity item;
                OrderItem.price := CartItem.price item;
                OrderItem.item_title := CartItem.title item |})
          (items c) in
    user c = Some u -> latitude c = Some lat -> longitude c = Some lng ->
    lat <> 0 -> lng <> 0 ->
    addressSchema.safeParse (label c) (addressLine c) lat lng = [] ->
    distance <= MAX_DELIVERY_DISTANCE ->
    addresses_insert b address = Created address_id ->
    orders_insert b order = Created order_id ->
    order_items_insert b lines = None ->
    handlePlaceOrder b c w =
      (Normal tt,
       {| store :=
            {| addresses := addresses (store w) ++ [(address_id, address)];
               orders := orders (store w) ++ [(order_id, order)];
               order_items := order_items (store w) ++ lines |};
          calls := calls w ++
                   [InsertAddress address; InsertOrder order;
                    InsertOrderItems lines];
          toasts := toasts w ++
                    [toast_success (Text "Order placed successfully!")];
          cart := [];
          location := Some ("/orders/" ++ order_id)%string;
          loading := false |}) /\
    List.length lines = List.length (items c).
Proof.
  intros b c w u lat lng aid oid distance address order lines
    Hu Hla Hln Hlat Hlng Hparse Hd Haddr Hord Hits.
  split; [| apply length_map].
  rewrite (handlePlaceOrder_checked b c u lat lng) by assumption.
  subst distance address order lines.
  unfold_handler. reduce_world.
  rewrite Haddr. reduce_world.
  rewrite Hord. reduce_world.
  rewrite Hits. reduce_world.
  rewrite <- !app_assoc. reflexivity.
Qed.

Lemma restaurant_is_in_range :
  calculateDistance RESTAURANT_LAT RESTAURANT_LNG 13.0878 80.2085
    <= MAX_DELIVERY_DISTANCE.
Proof.
  unfold RESTAURANT_LAT, RESTAURANT_LNG, MAX_DELIVERY_DISTANCE.
  assert (Hz : calculateDistance 13.0878 80.2085 13.0878 80.2085 = 0)
    by apply calculateDistance_eq_0, haversine_a_same.
  rewrite Hz. lra.
Qed.

Lemma successful_submission_witness :
  location
    (snd (handlePlaceOrder accepting_backend
            (render example_world (Some example_user) "Home"
               "12 Main Street, Anna Nagar" (Some 13.0878) (Some 80.2085) "")
            example_world)) = Some "/orders/order-1"%string /\
  List.length
    (order_items
       (store
          (snd (handlePlaceOrder accepting_backend
                  (render example_world (Some example_user) "Home"
                     "12 Main Street, Anna Nagar"
                     (Some 13.0878) (Some 80.2085) "")
                  example_world)))) = 2%nat.
Proof.
  destruct (successful_submission accepting_backend
              (render example_world (Some example_user) "Home"
                 "12 Main Street, Anna Nagar" (Some 13.0878) (Some 80.2085) "")
              example_world example_user 13.0878 80.2085
              "address-1" "order-1") as [Hrun _].
  - reflexivity.
  - reflexivity.
  - reflexivity.
  - lra.
  - lra.
  - reflexivity.
  - exact restaurant_is_in_range.
  - reflexivity.
  - reflexivity.
  - reflexivity.
  - rewrite Hrun. split; reflexivity.
Defined.

(** C4: when the checks pass and one of the three requests fails, the error
    of the store is shown ([error.message], or 'Failed to place order' when
    the message is empty), the later requests are not sent, the cart and the
    route are kept, and what the earlier requests created stays: a failure
    of the third request leaves the new order in the store with no order
    item. *)
Theorem failed_step_aborts_without_rollback :
  forall (b : Backend) (c : Checkout) (w : World) (u : User.t)
         (lat lng : R) (e : StoreError),
    let distance :=
      calculateDistance RESTAURANT_LAT RESTAURANT_LNG lat lng in
    let shown :=
      toasts w ++
      [toast_error (Text (message_or e "Failed to place order"))] in
    let address :=
      {| Address.user_id := User.id u; Address.label := label c;
         Address.address_line := addressLine c;
         Address.latitude := lat; Address.longitude := lng |} in
    let order := fun address_id : string =>
      {| Order.user_id := User.id u; Order.address_id := address_id;
         Order.subtotal := total c; Order.tax := total c * 0.05;
         Order.delivery_fee := 30;
         Order.total := total c + total c * 0.05 + 30;
         Order.distance_km := distance; Order.notes := notes c;
         Order.status := placed |} in
    let lines := fun order_id : string =>
      map (fun item =>
             {| OrderItem.order_id := order_id;
                OrderItem.menu_item_id := CartItem.id item;
                OrderItem.quantity := CartItem.quantity item;
                OrderItem.price := CartItem.price item;
                OrderItem.item_title := CartItem.title item |})
          (items c) in
    user c = Some u -> latitude c = Some lat -> longitude c = Some lng ->
    lat <> 0 -> lng <> 0 ->
    addressSchema.safeParse (label c) (addressLine c) lat lng = [] ->
    distance <= MAX_DELIVERY_DISTANCE ->
    (* step 1 fails *)
    (addresses_insert b address = Failed e ->
     handlePlaceOrder b c w =
       (Normal tt,
        {| store := store w;
           calls := calls w ++ [InsertAddress address];
           toasts := shown;
           cart := cart w; location := location w; loading := false |})) /\
    (* step 2 fails *)
    (forall address_id : string,
        addresses_insert b address = Created address_id ->
        orders_insert b (order address_id) = Failed e ->
        handlePlaceOrder b c w =
          (Normal tt,
           {| store :=
                {| addresses := addresses (store w) ++ [(address_id, address)];
                   orders := orders (store w);
                   order_items := order_items (store w) |};
              calls := calls w ++
                       [InsertAddress address; InsertOrder (order address_id)];
              toasts := shown;
              cart := cart w; location := location w; loading := false |})) /\
    (* step 3 fails *)
    (forall address_id order_id : string,
        addresses_insert b address = Created address_id ->
        orders_insert b (order address_id) = Created order_id ->
        order_items_insert b (lines order_id) = Some e ->
        handlePlaceOrder b c w =
          (Normal tt,
           {| store :=
                {| addresses := addresses (store w) ++ [(address_id, address)];
                   orders := orders (store w) ++
                             [(order_id, order address_id)];
                   order_items := order_items (store w) |};
              calls := calls w ++
                       [InsertAddress address; InsertOrder (order address_id);
                        InsertOrderItems (lines order_id)];
              toasts := shown;
              cart := cart w; location := location w; loading := false |})).
Proof.
  intros b c w u lat lng e distance shown address order lines
    Hu Hla Hln Hlat Hlng Hparse Hd.
  rewrite (handlePlaceOrder_checked b c u lat lng) by assumption.
  subst distance shown address order lines.
  unfold_handler. reduce_world.
  split; [| split].
  - intros Haddr. rewrite Haddr. reduce_world. reflexivity.
  - intros aid Haddr Hord. rewrite Haddr. reduce_world.
    rewrite Hord. reduce_world.
    rewrite <- !app_assoc. reflexivity.
  - intros aid oid Haddr Hord Hits. rewrite Haddr. reduce_world.
    rewrite Hord. reduce_world.
    rewrite Hits. reduce_world.
    rewrite <- !app_assoc. reflexivity.
Qed.

Lemma failed_step_aborts_without_rollback_witness :
  let w' :=
    snd (handlePlaceOrder refusing_items_backend
           (render example_world (Some example_user) "Home"
              "12 Main Street, Anna Nagar" (Some 13.0878) (Some 80.2085) "")
           example_world) in
  map fst (orders (store w')) = ["order-1"%string] /\
  order_items (store w') = [] /\
  toasts w' = [toast_error (Text "permission denied")] /\
  cart w' = example_cart /\ location w' = None.
Proof.
  destruct (failed_step_aborts_without_rollback refusing_items_backend
              (render example_world (Some example_user) "Home"
                 "12 Main Street, Anna Nagar" (Some 13.0878) (Some 80.2085) "")
              example_world example_user 13.0878 80.2085
              {| message := "permission denied" |})
    as [_ [_ Hthird]].
  - reflexivity.
  - reflexivity.
  - reflexivity.
  - lra.
  - lra.
  - reflexivity.
  - exact restaurant_is_in_range.
  - cbv zeta. rewrite (Hthird "address-1"%string "order-1"%string);
      [| reflexivity | reflexivity | reflexivity].
    repeat split; reflexivity.
Defined.

(** The handler either stops at a check, on one error toast, or runs the
    [try] statement with a distance within the limit. *)
Lemma handlePlaceOrder_cases b c :
  (exists m, handlePlaceOrder b c = toast.error m) \/
  (exists u lat lng,
      user c = Some u /\ latitude c = Some lat /\ longitude c = Some lng /\
      calculateDistance RESTAURANT_LAT RESTAURANT_LNG lat lng
        <= MAX_DELIVERY_DISTANCE /\
      handlePlaceOrder b c =
        (setLoading true ;;
         try_catch_finally
           (place_order_try b c u lat lng
              (calculateDistance RESTAURANT_LAT RESTAURANT_LNG lat lng))
           place_order_catch
           (setLoading false))).
Proof.
  unfold handlePlaceOrder.
  destruct (user c) as [u |]; [| left; eexists; reflexivity].
  destruct (latitude c) as [lat |]; [| left; eexists; reflexivity].
  destruct (longitude c) as [lng |]; [| left; eexists; reflexivity].
  destruct (negb (truthy lat) || negb (truthy lng));
    [left; eexists; reflexivity |].
  destruct (addressSchema.safeParse _ _ _ _) as [| issue rest];
    [| left; eexists; reflexivity].
  cbv zeta.
  destruct (Rgt_dec _ _) as [Hgt | Hle]; [left; eexists; reflexivity |].
  right. exists u, lat, lng. repeat split; try reflexivity.
  apply Rnot_gt_le. exact Hle.
Qed.

(** ** The record the [orders] table holds *)







Section Binary64_amounts.
Import QArith.

(** For a cart whose total is 8.1, the request carries the subtotal 8.1,
    the tax 0.405, the delivery fee 30 and the total 38.504999999999995. *)
Lemma amounts_sent_for_8_10 :
  (Binary64.Number_toString
     (Binary64.subtotal (Binary64.totals Binary64.eight_point_one)) ==
   81 # 10)%Q /\
  (Binary64.Number_toString
     (Binary64.tax (Binary64.totals Binary64.eight_point_one)) ==
   405 # 1000)%Q /\
  (Binary64.Number_toString
     (Binary64.deliveryFee (Binary64.totals Binary64.eight_point_one)) ==
   30 # 1)%Q /\
  (Binary64.Number_toString
     (Binary64.orderTotal (Binary64.totals Binary64.eight_point_one)) ==
   38504999999999995 # 1000000000000000)%Q.
Proof. vm_compute. repeat split. Qed.

(** The four amounts are stored as 8.10, 0.41, 30.00 and 38.50. *)
Lemma amounts_stored_for_8_10 :
  Binary64.stored_8_10 =
  {| Binary64.stored_subtotal := 810 # 100;
     Binary64.stored_tax := 41 # 100;
     Binary64.stored_delivery_fee := 3000 # 100;
     Binary64.stored_total := 3850 # 100 |}.
Proof. vm_compute. reflexivity. Qed.


End Binary64_amounts.

(** * Further properties of the code *)

(** ** [calculateDistance] along a meridian *)

Lemma sin_Rabs_half_turn y :
  - (PI / 2) <= y <= PI / 2 -> sqrt (sin y * sin y) = sin (Rabs y).
Proof.
  intros [Hl Hu]. pose proof PI_RGT_0 as Hpi.
  fold (Rsqr (sin y)). rewrite sqrt_Rsqr_abs.
  destruct (Rle_dec 0 y) as [Hpos | Hneg].
  - rewrite (Rabs_pos_eq y) by assumption.
    apply Rabs_pos_eq. apply sin_ge_0; lra.
  - assert (Hy : y < 0) by lra.
    rewrite (Rabs_left y) by assumption.
    rewrite sin_neg. apply Rabs_left.
    apply sin_lt_0_var; lra.
Qed.

(** For two points of one meridian whose latitudes differ by at most 180
    degrees, the formula over the reals gives the arc. *)
Lemma calculateDistance_along_meridian_eq lat1 lat2 lng :
  Rabs (lat2 - lat1) <= 180 ->
  calculateDistance lat1 lng lat2 lng =
    6371 * (Rabs (lat2 - lat1) * PI / 180).
Proof.
  intros Hd. pose proof PI_RGT_0 as Hpi.
  rewrite calculateDistance_asin.
  set (y := (lat2 - lat1) * PI / 180 / 2).
  assert (Ha : haversine_a lat1 lng lat2 lng = sin y * sin y).
  { unfold haversine_a. cbv zeta. fold y.
    replace ((lng - lng) * PI / 180 / 2) with 0 by field.
    rewrite sin_0. ring. }
  assert (Hy : - (PI / 2) <= y <= PI / 2).
  { unfold y. pose proof (Rle_abs (lat2 - lat1)) as Hd1.
    pose proof (Rle_abs (- (lat2 - lat1))) as Hd2.
    rewrite Rabs_Ropp in Hd2. split; nra. }
  rewrite Ha, (sin_Rabs_half_turn y Hy).
  assert (Hay : 0 <= Rabs y <= PI / 2).
  { split; [apply Rabs_pos |]. apply Rabs_le. lra. }
  rewrite asin_sin by lra.
  assert (Habs : Rabs y = Rabs (lat2 - lat1) * PI / 180 / 2).
  { unfold y. unfold Rdiv. rewrite !Rabs_mult.
    rewrite (Rabs_pos_eq PI) by lra.
    rewrite (Rabs_pos_eq (/ 180)) by lra.
    rewrite (Rabs_pos_eq (/ 2)) by lra. reflexivity. }
  rewrite Habs. field.
Qed.

(** ** [handlePlaceOrder]: every run *)

(** The final world after the requests named by [sent], the rows [na], [no]
    and [ni] gained by the three tables, the toast [t], and the cart and
    route left. *)
Lemma handlePlaceOrder_outcomes b c w :
  (exists m, handlePlaceOrder b c w = (Normal tt, show (toast_error m) w)) \/
  (exists u lat lng,
      user c = Some u /\ latitude c = Some lat /\ longitude c = Some lng /\
      calculateDistance RESTAURANT_LAT RESTAURANT_LNG lat lng
        <= MAX_DELIVERY_DISTANCE /\
      let d := calculateDistance RESTAURANT_LAT RESTAURANT_LNG lat lng in
      let address := address_row c u lat lng in
      ((exists e,
           addresses_insert b address = Failed e /\
           handlePlaceOrder b c w =
             (Normal tt,
              {| store := store w;
                 calls := calls w ++ [InsertAddress address];
                 toasts := toasts w ++
                   [toast_error (Text (message_or e "Failed to place order"))];
                 cart := cart w; location := location w;
                 loading := false |})) \/
       (exists aid e,
           addresses_insert b address = Created aid /\
           orders_insert b (order_row c u aid d) = Failed e /\
           handlePlaceOrder b c w =
             (Normal tt,
              {| store :=
                   {| addresses := addresses (store w) ++ [(aid, address)];
                      orders := orders (store w);
                      order_items := order_items (store w) |};
                 calls := calls w ++
                   [InsertAddress address; InsertOrder (order_row c u aid d)];
                 toasts := toasts w ++
                   [toast_error (Text (message_or e "Failed to place order"))];
                 cart := cart w; location := location w;
                 loading := false |})) \/
       (exists aid oid e,
           addresses_insert b address = Created aid /\
           orders_insert b (order_row c u aid d) = Created oid /\
           order_items_insert b (order_item_rows c oid) = Some e /\
           handlePlaceOrder b c w =
             (Normal tt,
              {| store :=
                   {| addresses := addresses (store w) ++ [(aid, address)];
                      orders := orders (store w) ++
                                [(oid, order_row c u aid d)];
                      order_items := order_items (store w) |};
                 calls := calls w ++
                   [InsertAddress address; InsertOrder (order_row c u aid d);
                    InsertOrderItems (order_item_rows c oid)];
                 toasts := toasts w ++
                   [toast_error (Text (message_or e "Failed to place order"))];
                 cart := cart w; location := location w;
                 loading := false |})) \/
       (exists aid oid,
           addresses_insert b address = Created aid /\
           orders_insert b (order_row c u aid d) = Created oid /\
           order_items_insert b (order_item_rows c oid) = None /\
           handlePlaceOrder b c w =
             (Normal tt,
              {| store :=
                   {| addresses := addresses (store w) ++ [(aid, address)];
                      orders := orders (store w) ++
                                [(oid, order_row c u aid d)];
                      order_items := order_items (store w) ++
                                     order_item_rows c oid |};
                 calls := calls w ++
                   [InsertAddress address; InsertOrder (order_row c u aid d);
                    InsertOrderItems (order_item_rows c oid)];
                 toasts := toasts w ++
                   [toast_success (Text "Order placed successfully!")];
                 cart := [];
                 location := Some ("/orders/" ++ oid)%string;
                 loading := false |})))).
Proof.
  destruct (handlePlaceOrder_cases b c)
    as [[m Hrun] | (u & lat & lng & Hu & Hla & Hln & Hd & Hrun)].
  - left. exists m. rewrite Hrun. reflexivity.
  - right. exists u, lat, lng. repeat (split; [assumption |]).
    cbv zeta. rewrite Hrun. clear Hrun.
    unfold address_row, order_row, order_item_rows.
    unfold place_order_try, place_order_catch, try_catch_finally, data_id,
      bind, ret, throw, supabase.insert_address, supabase.insert_order,
      supabase.insert_order_items, toast.error, toast.success, setLoading,
      clearCart, navigate, modify, show, log_call, set_store, totals.
    reduce_world.
    destruct (addresses_insert b _) as [aid | e1] eqn:Ea.
    2: { left. exists e1. split; [first [exact Ea | reflexivity] | reflexivity]. }
    reduce_world.
    destruct (orders_insert b _) as [oid | e2] eqn:Eo.
    2: { right; left. exists aid, e2. rewrite <- !app_assoc.
         split; [first [exact Ea | reflexivity] | split; [first [exact Eo | reflexivity] | reflexivity]]. }
    reduce_world.
    destruct (order_items_insert b _) as [e3 |] eqn:Ei.
    + right; right; left. exists aid, oid, e3. rewrite <- !app_assoc.
      split; [first [exact Ea | reflexivity] | split; [first [exact Eo | reflexivity] | split; [first [exact Ei | reflexivity] | reflexivity]]].
    + right; right; right. exists aid, oid. rewrite <- !app_assoc.
      split; [first [exact Ea | reflexivity] | split; [first [exact Eo | reflexivity] | split; [first [exact Ei | reflexivity] | reflexivity]]].
Qed.

Ltac handler_outcome b c w :=
  let m := fresh "m" in
  let u := fresh "u" in
  let lat := fresh "lat" in
  let lng := fresh "lng" in
  let aid := fresh "aid" in
  let oid := fresh "oid" in
  let e := fresh "e" in
  let Hu := fresh "Hu" in
  let Hla := fresh "Hla" in
  let Hln := fresh "Hln" in
  let Hd := fresh "Hd" in
  let Ha := fresh "Ha" in
  let Ho := fresh "Ho" in
  let Hi := fresh "Hi" in
  let Hrun := fresh "Hrun" in
  destruct (handlePlaceOrder_outcomes b c w)
    as [[m Hrun]
       | (u & lat & lng & Hu & Hla & Hln & Hd &
          [(e & Ha & Hrun)
          | [(aid & e & Ha & Ho & Hrun)
            | [(aid & oid & e & Ha & Ho & Hi & Hrun)
              | (aid & oid & Ha & Ho & Hi & Hrun)]]])];
  rewrite Hrun; clear Hrun;
  cbn [fst snd show store calls toasts cart location loading
       addresses orders order_items].

(** X5: every run of the handler ends normally (no error escapes the
    [try] statement) and shows exactly one toast. *)
Theorem handlePlaceOrder_ends_on_one_toast :
  forall (b : Backend) (c : Checkout) (w : World),
  exists t : Toast,
    fst (handlePlaceOrder b c w) = Normal tt /\
    toasts (snd (handlePlaceOrder b c w)) = toasts w ++ [t].
Proof.
  intros b c w. handler_outcome b c w; eexists; split; reflexivity.
Qed.

(** X6: the handler only adds: the request log and the three tables of the
    store keep what they held; it sends at most the three requests, always
    as a beginning of address, order, order items, and adds at most one
    address and one order. *)
Theorem handlePlaceOrder_only_appends :
  forall (b : Backend) (c : Checkout) (w : World),
    let w' := snd (handlePlaceOrder b c w) in
    exists (sent : list StoreCall) (na : list (string * Address.t))
           (no : list (string * Order.t)) (ni : list OrderItem.t),
      calls w' = calls w ++ sent /\
      addresses (store w') = addresses (store w) ++ na /\
      orders (store w') = orders (store w) ++ no /\
      order_items (store w') = order_items (store w) ++ ni /\
      (List.length na <= 1)%nat /\ (List.length no <= 1)%nat /\
      match sent with
      | [] => True
      | [InsertAddress _] => True
      | [InsertAddress _; InsertOrder _] => True
      | [InsertAddress _; InsertOrder _; InsertOrderItems _] => True
      | _ => False
      end.
Proof.
  intros b c w w'. subst w'.
  handler_outcome b c w;
    [exists [], [], [], [] | eexists _, [], [], [] | eexists _, _, [], []
    | eexists _, _, _, [] | eexists _, _, _, _];
    repeat split;
    first [reflexivity | symmetry; apply app_nil_r
          | cbn [List.length]; lia].
Qed.

(** X7: either the handler stopped at a check, and then it sent nothing and
    left the store and the loading flag as they were, or it sent the address
    request first, and then the loading flag is off at the end whatever the
    backend answered. *)
Theorem handlePlaceOrder_resets_loading :
  forall (b : Backend) (c : Checkout) (w : World),
    let w' := snd (handlePlaceOrder b c w) in
    (calls w' = calls w /\ store w' = store w /\ loading w' = loading w) \/
    (loading w' = false /\
     exists (a : Address.t) (rest : list StoreCall),
       calls w' = calls w ++ InsertAddress a :: rest).
Proof.
  intros b c w w'. subst w'. handler_outcome b c w.
  - left. repeat split.
  - right. split; [reflexivity |]. eexists _, _. reflexivity.
  - right. split; [reflexivity |]. eexists _, _. reflexivity.
  - right. split; [reflexivity |]. eexists _, _. reflexivity.
  - right. split; [reflexivity |]. eexists _, _. reflexivity.
Qed.

(** X8: when the toast is an error, the cart and the route are untouched;
    the cart is emptied and the route changed only with the success toast,
    and then the route is the tracking page of an order that the store has
    just gained, together with one order item per line of the cart. *)
Theorem handlePlaceOrder_clears_cart_only_on_success :
  forall (b : Backend) (c : Checkout) (w : World),
    let w' := snd (handlePlaceOrder b c w) in
    (exists m : Message,
        toasts w' = toasts w ++ [toast_error m] /\
        cart w' = cart w /\ location w' = location w) \/
    (exists (oid : string) (o : Order.t),
        toasts w' =
          toasts w ++ [toast_success (Text "Order placed successfully!")] /\
        cart w' = [] /\
        location w' = Some ("/orders/" ++ oid)%string /\
        orders (store w') = orders (store w) ++ [(oid, o)] /\
        order_items (store w') =
          order_items (store w) ++ order_item_rows c oid).
Proof.
  intros b c w w'. subst w'. handler_outcome b c w.
  - left. eexists. repeat split.
  - left. eexists. repeat split.
  - left. eexists. repeat split.
  - left. eexists. repeat split.
  - right. eexists _, _. repeat split.
Qed.

(** X9: the rows the handler adds refer to rows of the store: a new order to
    the id of an address of the store, and every new order item to the id of
    an order of the store. *)
Theorem handlePlaceOrder_keeps_references :
  forall (b : Backend) (c : Checkout) (w : World),
    let w' := snd (handlePlaceOrder b c w) in
    exists (no : list (string * Order.t)) (ni : list OrderItem.t),
      orders (store w') = orders (store w) ++ no /\
      order_items (store w') = order_items (store w) ++ ni /\
      Forall (fun row =>
                In (Order.address_id (snd row))
                   (map fst (addresses (store w')))) no /\
      Forall (fun item =>
                In (OrderItem.order_id item)
                   (map fst (orders (store w')))) ni.
Proof.
  intros b c w w'. subst w'. handler_outcome b c w.
  - exists [], []. rewrite !app_nil_r. repeat split; constructor.
  - exists [], []. rewrite !app_nil_r. repeat split; constructor.
  - exists [], []. rewrite !app_nil_r. repeat split; constructor.
  - eexists _, [].
    split; [reflexivity | split; [symmetry; apply app_nil_r | split]];
      [| apply Forall_nil].
    apply Forall_cons; [| apply Forall_nil].
    cbn [snd order_row Order.address_id]. rewrite map_app.
    apply in_or_app. right. left. reflexivity.
  - eexists _, _.
    split; [reflexivity | split; [reflexivity | split]].
    + apply Forall_cons; [| apply Forall_nil].
      cbn [snd order_row Order.address_id]. rewrite map_app.
      apply in_or_app. right. left. reflexivity.
    + unfold order_item_rows. apply Forall_map. apply Forall_forall.
      intros item _. cbn [OrderItem.order_id]. rewrite map_app.
      apply in_or_app. right. left. reflexivity.
Qed.

(** ** [handlePlaceOrder]: the checks, one by one *)

(** X11: for a signed-in user with both coordinates other than [0], an
    empty label gives the toast 'Label is required', and a label with an
    address line under 10 characters gives 'Address must be at least 10
    characters'; in both cases nothing is sent, also when the destination is
    out of range. *)
Theorem handlePlaceOrder_invalid_address :
  forall (b : Backend) (c : Checkout) (w : World) (u : User.t) (lat lng : R),
    user c = Some u -> latitude c = Some lat -> longitude c = Some lng ->
    lat <> 0 -> lng <> 0 ->
    ((String.length (label c) < 1)%nat ->
     handlePlaceOrder b c w =
       (Normal tt, show (toast_error (Text "Label is required")) w)) /\
    ((1 <= String.length (label c))%nat ->
     (String.length (addressLine c) < 10)%nat ->
     handlePlaceOrder b c w =
       (Normal tt,
        show (toast_error (Text "Address must be at least 10 characters")) w)).
Proof.
  intros b c w u lat lng Hu Hla Hln Hlat Hlng.
  unfold handlePlaceOrder. rewrite Hu, Hla, Hln.
  rewrite (truthy_nonzero _ Hlat), (truthy_nonzero _ Hlng). cbn [negb orb].
  unfold addressSchema.safeParse.
  split.
  - intros Hl. apply Nat.ltb_lt in Hl. rewrite Hl. reflexivity.
  - intros Hl Ha. apply Nat.ltb_ge in Hl. apply Nat.ltb_lt in Ha.
    rewrite Hl, Ha. reflexivity.
Qed.

Lemma handlePlaceOrder_invalid_address_witness :
  handlePlaceOrder accepting_backend
    (render example_world (Some example_user) "Home" "too short"
       (Some 14.0878) (Some 80.2085) "")
    example_world =
  (Normal tt,
   show (toast_error (Text "Address must be at least 10 characters"))
     example_world).
Proof.
  apply (handlePlaceOrder_invalid_address accepting_backend
           (render example_world (Some example_user) "Home" "too short"
              (Some 14.0878) (Some 80.2085) "")
           example_world example_user 14.0878 80.2085);
    try reflexivity; try lra; cbn; lia.
Defined.

(** X12: when the [total] of the cart context is the sum of price × quantity
    over its [items], the order items the handler sends add up, by price ×
    quantity, to the subtotal of the order it sent before them. *)
Theorem order_items_add_up_to_subtotal :
  forall (b : Backend) (c : Checkout) (w : World),
    total c =
      fold_right Rplus 0
        (map (fun i => CartItem.price i * CartItem.quantity i) (items c)) ->
    exists sent : list StoreCall,
      calls (snd (handlePlaceOrder b c w)) = calls w ++ sent /\
      match sent with
      | [InsertAddress _; InsertOrder o; InsertOrderItems rows] =>
          fold_right Rplus 0
            (map (fun r => OrderItem.price r * OrderItem.quantity r) rows) =
          Order.subtotal o
      | _ => True
      end.
Proof.
  intros b c w Htotal.
  assert (Hsum : forall oid,
             fold_right Rplus 0
               (map (fun r => OrderItem.price r * OrderItem.quantity r)
                  (order_item_rows c oid)) = total c).
  { intros oid. rewrite Htotal. unfold order_item_rows. rewrite map_map.
    reflexivity. }
  handler_outcome b c w.
  - exists []. rewrite app_nil_r. split; [reflexivity | exact I].
  - eexists. split; [reflexivity | exact I].
  - eexists. split; [reflexivity | exact I].
  - eexists. split; [reflexivity |]. cbn [order_row Order.subtotal].
    apply Hsum.
  - eexists. split; [reflexivity |]. cbn [order_row Order.subtotal].
    apply Hsum.
Qed.

Lemma order_items_add_up_to_subtotal_witness :
  exists sent : list StoreCall,
    calls (snd (handlePlaceOrder accepting_backend
                  (render example_world (Some example_user) "Home"
                     "12 Main Street, Anna Nagar"
                     (Some 13.0878) (Some 80.2085) "")
                  example_world)) = calls example_world ++ sent /\
    match sent with
    | [InsertAddress _; InsertOrder o; InsertOrderItems rows] =>
        fold_right Rplus 0
          (map (fun r => OrderItem.price r * OrderItem.quantity r) rows) =
        Order.subtotal o
    | _ => True
    end.
Proof.
  apply (order_items_add_up_to_subtotal accepting_backend
           (render example_world (Some example_user) "Home"
              "12 Main Street, Anna Nagar" (Some 13.0878) (Some 80.2085) "")
           example_world).
  reflexivity.
Defined.

(** ** [handleGetLocation] and the button *)

(** X13: after the browser reports a position, 'Location captured!' is
    shown and, with no submission under way, the 'Place Order' button is
    disabled exactly when the latitude or the longitude reported is [0];
    in that case [handlePlaceOrder] on the new form sends nothing either. *)
Theorem captured_location_enables_button_unless_zero :
  forall (b : Backend) (c : Checkout) (w : World) (lat lng : R),
    let c' := fst (handleGetLocation (Position lat lng) c w) in
    let w' := snd (handleGetLocation (Position lat lng) c w) in
    toasts w' = toasts w ++ [toast_success (Text "Location captured!")] /\
    (placeOrder_disabled false c' = true <-> lat = 0 \/ lng = 0) /\
    (lat = 0 \/ lng = 0 ->
     calls (snd (handlePlaceOrder b c' w')) = calls w).
Proof.
  intros b c w lat lng c' w'. subst c' w'.
  cbn [handleGetLocation fst snd show toasts].
  split; [reflexivity |]. split.
  - unfold placeOrder_disabled, truthy_opt, truthy.
    cbn [latitude longitude orb].
    destruct (Req_dec_T lat 0) as [Hz | Hnz];
      destruct (Req_dec_T lng 0) as [Hz' | Hnz']; cbn [negb orb];
      split; intros H; auto; try discriminate.
    destruct H; contradiction.
  - intros H.
    rewrite handlePlaceOrder_no_location.
    + reflexivity.
    + cbn [latitude longitude truthy_opt].
      destruct H as [-> | ->]; rewrite truthy_zero; auto.
Qed.

Lemma captured_location_enables_button_unless_zero_witness :
  calls (snd (handlePlaceOrder accepting_backend
                (fst (handleGetLocation (Position 0 80.2085)
                        (render example_world (Some example_user) "Home"
                           "12 Main Street, Anna Nagar" None None "")
                        example_world))
                (snd (handleGetLocation (Position 0 80.2085)
                        (render example_world (Some example_user) "Home"
                           "12 Main Street, Anna Nagar" None None "")
                        example_world)))) = calls example_world.
Proof.
  apply (captured_location_enables_button_unless_zero accepting_backend
           (render example_world (Some example_user) "Home"
              "12 Main Street, Anna Nagar" None None "")
           example_world 0 80.2085).
  left. reflexivity.
Defined.

(** ** The gate on the restaurant's meridian *)

(** X14: for a signed-in user with a valid address and a destination on the
    longitude of the restaurant, at a latitude other than [0] and within
    180 degrees of the restaurant's, the handler sends nothing exactly when
    the arc [6371 * |lat - 13.0878| * PI / 180] exceeds 10 km. *)
Theorem meridian_gate :
  forall (b : Backend) (c : Checkout) (w : World) (u : User.t) (lat : R),
    user c = Some u -> latitude c = Some lat ->
    longitude c = Some RESTAURANT_LNG ->
    lat <> 0 ->
    addressSchema.safeParse (label c) (addressLine c) lat RESTAURANT_LNG = [] ->
    Rabs (lat - RESTAURANT_LAT) <= 180 ->
    (calls (snd (handlePlaceOrder b c w)) = calls w <->
     10 < 6371 * (Rabs (lat - RESTAURANT_LAT) * PI / 180)).
Proof.
  intros b c w u lat Hu Hla Hln Hlat Hparse Habs.
  pose proof (calculateDistance_along_meridian_eq RESTAURANT_LAT lat
                RESTAURANT_LNG Habs) as Hd.
  assert (Hlng : RESTAURANT_LNG <> 0) by (unfold RESTAURANT_LNG; lra).
  split.
  - intros Hcalls. apply Rnot_le_lt. intros Hle.
    rewrite (handlePlaceOrder_checked b c u lat RESTAURANT_LNG) in Hcalls;
      try assumption.
    2: { rewrite Hd. unfold MAX_DELIVERY_DISTANCE. exact Hle. }
    revert Hcalls.
    unfold place_order_try, place_order_catch, try_catch_finally, data_id,
      bind, ret, throw, supabase.insert_address, supabase.insert_order,
      supabase.insert_order_items, toast.error, toast.success, setLoading,
      clearCart, navigate, modify, show, log_call, set_store.
    reduce_world.
    destruct (addresses_insert b _); reduce_world;
      [destruct (orders_insert b _); reduce_world;
       [destruct (order_items_insert b _); reduce_world |] |];
      intros Hcalls;
      apply (f_equal (@List.length StoreCall)) in Hcalls;
      rewrite ?length_app in Hcalls; cbn [List.length] in Hcalls; lia.
  - intros Hfar.
    destruct (handlePlaceOrder_out_of_range b c lat RESTAURANT_LNG Hla Hln)
      as [m [Hrun _]].
    + rewrite Hd. unfold MAX_DELIVERY_DISTANCE. exact Hfar.
    + rewrite Hrun. reflexivity.
Qed.

Lemma meridian_gate_witness :
  calls (snd (handlePlaceOrder accepting_backend
                (render example_world (Some example_user) "Home"
                   "12 Main Street, Anna Nagar"
                   (Some 14.0878) (Some RESTAURANT_LNG) "")
                example_world)) = calls example_world <->
  10 < 6371 * (Rabs (14.0878 - RESTAURANT_LAT) * PI / 180).
Proof.
  apply (meridian_gate accepting_backend
           (render example_world (Some example_user) "Home"
              "12 Main Street, Anna Nagar"
              (Some 14.0878) (Some RESTAURANT_LNG) "")
           example_world example_user 14.0878).
  - reflexivity.
  - reflexivity.
  - reflexivity.
  - lra.
  - reflexivity.
  - unfold RESTAURANT_LAT. replace (14.0878 - 13.0878) with 1 by lra.
    rewrite Rabs_pos_eq; lra.
Defined.

(** ** The handler against the row-level security of the migration *)

Lemma uid_is_true uid column : uid_is uid column = true <-> uid = Some column.
Proof.
  destruct uid as [id |]; cbn [uid_is].
  - rewrite String.eqb_eq. split; [intros -> | intros [= ->]]; reflexivity.
  - split; discriminate.
Qed.

(** X15: for a signed-in user, every address and order the handler sends
    passes the [INSERT] check of its table for this user and for no other
    caller, and every order item it sends passes the check of [order_items]
    for this user against the orders the store then holds. *)
Theorem sent_rows_pass_insert_policies :
  forall (b : Backend) (c : Checkout) (w : World) (u : User.t),
    user c = Some u ->
    let w' := snd (handlePlaceOrder b c w) in
    exists sent : list StoreCall,
      calls w' = calls w ++ sent /\
      Forall (fun call =>
                match call with
                | InsertAddress row =>
                    forall uid, policy.addresses_all uid row = true <->
                                uid = Some (User.id u)
                | InsertOrder row =>
                    forall uid, policy.orders_insert uid row = true <->
                                uid = Some (User.id u)
                | InsertOrderItems rows =>
                    Forall (fun row =>
                              policy.order_items_insert (orders (store w'))
                                (Some (User.id u)) row = true) rows
                end) sent.
Proof.
  intros b c w u Hu w'. subst w'.
  assert (Haddr : forall lat lng uid,
             policy.addresses_all uid (address_row c u lat lng) = true <->
             uid = Some (User.id u)).
  { intros. unfold policy.addresses_all. apply uid_is_true. }
  assert (Hord : forall aid d uid,
             policy.orders_insert uid (order_row c u aid d) = true <->
             uid = Some (User.id u)).
  { intros. unfold policy.orders_insert. apply uid_is_true. }
  assert (Hitems : forall old aid oid d,
             Forall (fun row =>
                       policy.order_items_insert
                         (old ++ [(oid, order_row c u aid d)])
                         (Some (User.id u)) row = true)
                    (order_item_rows c oid)).
  { intros. unfold order_item_rows. apply Forall_map, Forall_forall.
    intros item _. unfold policy.order_items_insert.
    rewrite existsb_app. apply orb_true_iff. right.
    cbn [existsb fst snd OrderItem.order_id order_row Order.user_id uid_is].
    rewrite !String.eqb_refl. reflexivity. }
  handler_outcome b c w;
    try match goal with
        | H : user c = Some ?x, H' : user c = Some ?y |- _ =>
            assert (x = y) by congruence; subst x
        end.
  - exists []. rewrite app_nil_r. split; [reflexivity | apply Forall_nil].
  - eexists. split; [reflexivity |].
    apply Forall_cons; [apply Haddr | apply Forall_nil].
  - eexists. split; [reflexivity |].
    apply Forall_cons; [apply Haddr |].
    apply Forall_cons; [apply Hord | apply Forall_nil].
  - eexists. split; [reflexivity |].
    apply Forall_cons; [apply Haddr |].
    apply Forall_cons; [apply Hord |].
    apply Forall_cons; [apply Hitems | apply Forall_nil].
  - eexists. split; [reflexivity |].
    apply Forall_cons; [apply Haddr |].
    apply Forall_cons; [apply Hord |].
    apply Forall_cons; [apply Hitems | apply Forall_nil].
Qed.

Lemma sent_rows_pass_insert_policies_witness :
  exists sent : list StoreCall,
    calls (snd (handlePlaceOrder accepting_backend
                  (render example_world (Some example_user) "Home"
                     "12 Main Street, Anna Nagar"
                     (Some 13.0878) (Some 80.2085) "")
                  example_world)) = calls example_world ++ sent /\
    Forall (fun call =>
              match call with
              | InsertAddress row =>
                  forall uid, policy.addresses_all uid row = true <->
                              uid = Some (User.id example_user)
              | InsertOrder row =>
                  forall uid, policy.orders_insert uid row = true <->
                              uid = Some (User.id example_user)
              | InsertOrderItems rows =>
                  Forall (fun row =>
                            policy.order_items_insert
                              (orders (store
                                 (snd (handlePlaceOrder accepting_backend
                                         (render example_world
                                            (Some example_user) "Home"
                                            "12 Main Street, Anna Nagar"
                                            (Some 13.0878) (Some 80.2085) "")
                                         example_world))))
                              (Some (User.id example_user)) row = true) rows
              end) sent.
Proof.
  apply (sent_rows_pass_insert_policies accepting_backend
           (render example_world (Some example_user) "Home"
              "12 Main Street, Anna Nagar" (Some 13.0878) (Some 80.2085) "")
           example_world example_user).
  reflexivity.
Defined.

(** X16: an order item is visible to a caller exactly when the orders table
    holds an order with the id the item refers to that this caller may see
    by the policy of [orders]. *)
Theorem order_item_visible_iff_its_order_is :
  forall (user_roles : list (string * app_role.t))
         (orders : list (string * Order.t)) (uid : option string)
         (item : OrderItem.t),
    policy.order_items_select user_roles orders uid item = true <->
    exists o : Order.t,
      In (OrderItem.order_id item, o) orders /\
      policy.orders_select user_roles uid o = true.
Proof.
  intros user_roles orders uid item.
  unfold policy.order_items_select, policy.orders_select.
  rewrite existsb_exists. split.
  - intros [[oid o] [Hin Hb]]. cbn [fst snd] in Hb.
    apply andb_true_iff in Hb. destruct Hb as [Hid Hvis].
    apply String.eqb_eq in Hid. subst oid.
    exists o. split; assumption.
  - intros [o [Hin Hvis]]. exists (OrderItem.order_id item, o).
    split; [assumption |]. cbn [fst snd].
    rewrite String.eqb_refl, Hvis. reflexivity.
Qed.

(** X17: a caller passes the [UPDATE] policy of [orders] exactly when it is
    signed in and [user_roles] holds a row of its id with the role [admin];
    an anonymous caller never does. *)
Theorem orders_update_needs_admin_row :
  forall (user_roles : list (string * app_role.t)) (uid : option string),
    (policy.orders_update user_roles uid = true <->
     exists id : string,
       uid = Some id /\ In (id, app_role.admin) user_roles) /\
    policy.orders_update user_roles None = false.
Proof.
  intros user_roles uid. unfold policy.orders_update, has_role. split.
  - rewrite existsb_exists. split.
    + intros [[id r] [Hin Hb]]. cbn [fst snd] in Hb.
      apply andb_true_iff in Hb. destruct Hb as [Hid Hr].
      apply uid_is_true in Hid. destruct r; [| discriminate Hr].
      exists id. split; assumption.
    + intros [id [-> Hin]]. exists (id, app_role.admin).
      split; [assumption |]. cbn [fst snd uid_is app_role.eqb].
      rewrite String.eqb_refl. reflexivity.
  - induction user_roles as [| row rest IH]; [reflexivity |].
    cbn [existsb uid_is andb orb]. exact IH.
Qed.

(** ** The timeline of the order tracking page *)

Lemma findIndex_from_none {A : Type} (p : A -> bool) (l : list A) (i : Z) :
  (forall x, In x l -> p x = false) ->
  OrderTracking.findIndex_from p l i = (-1)%Z.
Proof.
  revert i. induction l as [| x rest IH]; intros i Hp; [reflexivity |].
  cbn [OrderTracking.findIndex_from].
  rewrite (Hp x (or_introl eq_refl)).
  apply IH. intros y Hy. apply Hp. right. exact Hy.
Qed.

(** X18: for an order whose status is none of the four steps, as
    [cancelled], the timeline shows no step as completed and none as
    current. *)
Theorem timeline_of_unlisted_status :
  forall status : string,
    (forall step, In step OrderTracking.statusSteps -> fst step <> status) ->
    forall index : nat,
      OrderTracking.isCompleted index
        (OrderTracking.getCurrentStepIndex (Some status)) = false /\
      OrderTracking.isCurrent index
        (OrderTracking.getCurrentStepIndex (Some status)) = false.
Proof.
  intros status Hnone index.
  unfold OrderTracking.getCurrentStepIndex, OrderTracking.findIndex.
  rewrite findIndex_from_none.
  - unfold OrderTracking.isCompleted, OrderTracking.isCurrent.
    split; [apply Z.leb_gt | apply Z.eqb_neq]; lia.
  - intros step Hin. apply String.eqb_neq. apply Hnone. exact Hin.
Qed.

Lemma timeline_of_unlisted_status_witness :
  OrderTracking.isCompleted 0
    (OrderTracking.getCurrentStepIndex (Some "cancelled"%string)) = false /\
  OrderTracking.isCurrent 0
    (OrderTracking.getCurrentStepIndex (Some "cancelled"%string)) = false.
Proof.
  apply (timeline_of_unlisted_status "cancelled").
  intros step Hin. cbn in Hin.
  destruct Hin as [<- | [<- | [<- | [<- | []]]]]; discriminate.
Defined.

(** X19: when a realtime update brings the status of the order on display
    to the key of the step at position [i], the steps up to [i] are shown
    completed and the step [i] alone is current. *)
Theorem timeline_after_update :
  forall (prev key lbl : string) (i : nat),
    nth_error OrderTracking.statusSteps i = Some (key, lbl) ->
    let current :=
      OrderTracking.getCurrentStepIndex
        (OrderTracking.on_update (Some prev) key) in
    current = Z.of_nat i /\
    forall j : nat,
      OrderTracking.isCompleted j current = (j <=? i)%nat /\
      OrderTracking.isCurrent j current = (j =? i)%nat.
Proof.
  intros prev key lbl i Hnth current.
  assert (Hcur : current = Z.of_nat i).
  { subst current.
    do 4 (destruct i as [| i];
          [cbn in Hnth; injection Hnth as <- <-; reflexivity |]).
    destruct i; discriminate Hnth. }
  split; [exact Hcur |]. intros j. rewrite Hcur.
  unfold OrderTracking.isCompleted, OrderTracking.isCurrent. split.
  - destruct (Z.leb_spec (Z.of_nat j) (Z.of_nat i));
      destruct (Nat.leb_spec j i); try reflexivity; lia.
  - destruct (Z.eqb_spec (Z.of_nat j) (Z.of_nat i));
      destruct (Nat.eqb_spec j i); try reflexivity; lia.
Qed.

Lemma timeline_after_update_witness :
  OrderTracking.getCurrentStepIndex
    (OrderTracking.on_update (Some "placed"%string) "out_for_delivery") =
  Z.of_nat 2.
Proof.
  apply (timeline_after_update "placed" "out_for_delivery"
           "Out for Delivery" 2).
  reflexivity.
Defined.

(** ** The tabs of the admin panel *)

(** X20: the two tabs split the orders: an order is under 'Completed'
    exactly when its status is [delivered] or [cancelled], under 'Active'
    exactly otherwise (any other status, known or not), and the two counts
    add up to the number of orders. *)
Theorem admin_tabs_split_orders :
  forall orders : list Admin.Order,
    (List.length (Admin.activeOrders orders) +
     List.length (Admin.completedOrders orders) = List.length orders)%nat /\
    forall o : Admin.Order,
      (In o (Admin.completedOrders orders) <->
       In o orders /\
       (Admin.status o = "delivered"%string \/
        Admin.status o = "cancelled"%string)) /\
      (In o (Admin.activeOrders orders) <->
       In o orders /\
       Admin.status o <> "delivered"%string /\
       Admin.status o <> "cancelled"%string).
Proof.
  intros orders. split.
  - unfold Admin.activeOrders, Admin.completedOrders.
    rewrite Nat.add_comm. apply filter_length.
  - intros o. unfold Admin.activeOrders, Admin.completedOrders.
    rewrite !filter_In. unfold Admin.includes. cbn [existsb].
    rewrite orb_false_r.
    destruct (String.eqb_spec (Admin.status o) "delivered") as [Hd | Hd];
      destruct (String.eqb_spec (Admin.status o) "cancelled") as [Hc | Hc];
      cbn [orb negb]; split; split; intros [Hin H]; split; auto;
      try discriminate; try tauto.
Qed.

(** ** The categories of the storefront *)

Lemma Set_from_spec (values seen : list string) :
  NoDup seen ->
  NoDup (Home.Set_from seen values) /\
  (forall x, In x (Home.Set_from seen values) <-> In x seen \/ In x values) /\
  exists rest, Home.Set_from seen values = seen ++ rest.
Proof.
  revert seen. induction values as [| v values IH]; intros seen Hnd.
  - cbn [Home.Set_from]. split; [assumption |]. split.
    + intros x. cbn [In]. tauto.
    + exists []. symmetry. apply app_nil_r.
  - cbn [Home.Set_from].
    destruct (existsb (String.eqb v) seen) eqn:Hseen.
    + destruct (IH seen Hnd) as [H1 [H2 H3]].
      split; [assumption |]. split; [| assumption].
      intros x. rewrite H2. cbn [In].
      apply existsb_exists in Hseen. destruct Hseen as [y [Hy Hvy]].
      apply String.eqb_eq in Hvy. subst y.
      split; [tauto |]. intros [H | [<- | H]]; auto.
    + assert (Hnotin : ~ In v seen).
      { intros Hin.
        assert (Ht : existsb (String.eqb v) seen = true).
        { apply existsb_exists. exists v. split; [assumption |].
          apply String.eqb_refl. }
        rewrite Ht in Hseen. discriminate Hseen. }
      assert (Hnd' : NoDup (seen ++ [v])).
      { apply NoDup_app.
        - assumption.
        - constructor; [intros [] | constructor].
        - intros x Hx [<- | []]. contradiction. }
      destruct (IH (seen ++ [v]) Hnd') as [H1 [H2 [rest H3]]].
      split; [assumption |]. split.
      * intros x. rewrite H2, in_app_iff. cbn [In]. tauto.
      * exists (v :: rest). rewrite H3, <- app_assoc. reflexivity.
Qed.

(** X21: the categories shown hold every category of the rows fetched and
    no other, each once, the category of the first row first; with no data
    there is none. *)
Theorem uniqueCategories_are_the_categories_once :
  forall categories : list string,
    NoDup (Home.uniqueCategories (Some categories)) /\
    (forall x, In x (Home.uniqueCategories (Some categories)) <->
               In x categories) /\
    hd_error (Home.uniqueCategories (Some categories)) = hd_error categories /\
    Home.uniqueCategories None = [].
Proof.
  intros categories. unfold Home.uniqueCategories.
  destruct (Set_from_spec categories [] (NoDup_nil _)) as [H1 [H2 _]].
  split; [assumption |]. split.
  - intros x. rewrite H2. cbn [In]. tauto.
  - split; [| reflexivity].
    destruct categories as [| c rest]; [reflexivity |].
    cbn [Home.Set_from existsb app hd_error].
    destruct (Set_from_spec rest [c]) as [_ [_ [tail Htail]]].
    + constructor; [intros [] | constructor].
    + rewrite Htail. reflexivity.
Qed.

(** ** The key handed to the push manager *)

Lemma string_length_append (s t : string) :
  String.length (s ++ t) = (String.length s + String.length t)%nat.
Proof.
  induction s as [| ch s IH]; [reflexivity |].
  cbn [append String.length]. rewrite IH. reflexivity.
Qed.

Lemma string_append_empty (s : string) : (s ++ "")%string = s.
Proof.
  induction s as [| ch s IH]; [reflexivity |].
  cbn [append]. rewrite IH. reflexivity.
Qed.

Lemma repeat_eq_length n :
  String.length (pushNotifications.repeat_eq n) = n.
Proof.
  induction n as [| n IH]; [reflexivity |].
  cbn [pushNotifications.repeat_eq String.length]. rewrite IH. reflexivity.
Qed.

Lemma replace_all_length a b s :
  String.length (pushNotifications.replace_all a b s) = String.length s.
Proof.
  induction s as [| ch s IH]; [reflexivity |].
  cbn [pushNotifications.replace_all String.length]. rewrite IH. reflexivity.
Qed.

Lemma replace_all_In a b s ch :
  a <> b ->
  In ch (list_ascii_of_string (pushNotifications.replace_all a b s)) ->
  ch <> a /\
  (In ch (list_ascii_of_string s) \/ ch = b).
Proof.
  intros Hab. induction s as [| x s IH]; [intros [] |].
  cbn [pushNotifications.replace_all list_ascii_of_string In].
  intros [Hx | Hin].
  - destruct (Ascii.eqb_spec x a) as [-> | Hne].
    + subst ch. split; [congruence | right; reflexivity].
    + subst ch. split; [assumption | left; left; reflexivity].
  - destruct (IH Hin) as [H1 [H2 | H2]]; split; auto.
Qed.

Lemma replace_all_absent a b s :
  ~ In a (list_ascii_of_string s) ->
  pushNotifications.replace_all a b s = s.
Proof.
  induction s as [| x s IH]; [reflexivity |].
  cbn [pushNotifications.replace_all list_ascii_of_string In]. intros Hnot.
  destruct (Ascii.eqb_spec x a) as [-> | Hne].
  - exfalso. apply Hnot. left. reflexivity.
  - rewrite IH; [reflexivity |]. intros Hin. apply Hnot. right. exact Hin.
Qed.

Lemma base64_length_mod_4 s :
  (String.length (pushNotifications.base64 s) mod 4 = 0)%nat.
Proof.
  unfold pushNotifications.base64. cbv zeta.
  rewrite !replace_all_length, string_length_append, repeat_eq_length.
  set (n := String.length s).
  pose proof (Nat.mod_upper_bound n 4 ltac:(lia)) as Hlt.
  pose proof (Nat.div_mod_eq n 4) as Hn.
  set (r := (n mod 4)%nat) in *.
  assert (Hr : (r = 0 \/ r = 1 \/ r = 2 \/ r = 3)%nat) by lia.
  replace (n + (4 - r) mod 4)%nat
    with ((r + (4 - r) mod 4) + (n / 4) * 4)%nat by lia.
  rewrite Nat.Div0.mod_add.
  destruct Hr as [-> | [-> | [-> | ->]]]; reflexivity.
Qed.

Lemma base64_chars s ch :
  In ch (list_ascii_of_string (pushNotifications.base64 s)) ->
  ch <> "-"%char /\ ch <> "_"%char.
Proof.
  unfold pushNotifications.base64. cbv zeta. intros Hin.
  apply replace_all_In in Hin; [| discriminate].
  destruct Hin as [Hne [Hin | ->]]; [| split; discriminate].
  apply replace_all_In in Hin; [| discriminate].
  destruct Hin as [Hne' _]. split; assumption.
Qed.

(** X22: the string that [urlBase64ToUint8Array] hands to [atob] has a
    length that is a multiple of 4 and holds neither ['-'] nor ['_'];
    on a string of that form the padding and the two replacements change
    nothing; and the array returned has one element per character that
    [atob] gives back. *)
Theorem urlBase64_normalises_before_decoding :
  forall (atob : string -> string) (base64String : string),
    (String.length (pushNotifications.base64 base64String) mod 4 = 0)%nat /\
    (forall ch,
        In ch (list_ascii_of_string (pushNotifications.base64 base64String)) ->
        ch <> "-"%char /\ ch <> "_"%char) /\
    pushNotifications.base64 (pushNotifications.base64 base64String) =
      pushNotifications.base64 base64String /\
    List.length (pushNotifications.urlBase64ToUint8Array atob base64String) =
      String.length (atob (pushNotifications.base64 base64String)).
Proof.
  intros atob s.
  split; [apply base64_length_mod_4 |].
  split; [apply base64_chars |].
  split.
  - pose proof (base64_length_mod_4 s) as Hm.
    pose proof (base64_chars s) as Hch.
    set (t := pushNotifications.base64 s) in *. clearbody t.
    unfold pushNotifications.base64. cbv zeta. rewrite Hm.
    change ((4 - 0) mod 4)%nat with 0%nat.
    cbn [pushNotifications.repeat_eq]. rewrite string_append_empty.
    rewrite (replace_all_absent "-"%char "+"%char t).
    + apply replace_all_absent. intros Hin.
      destruct (Hch _ Hin) as [_ H]. now apply H.
    + intros Hin. destruct (Hch _ Hin) as [H _]. now apply H.
  - unfold pushNotifications.urlBase64ToUint8Array. cbv zeta.
    rewrite length_map.
    generalize (atob (pushNotifications.base64 s)). intros raw.
    induction raw as [| ch raw IH]; [reflexivity |].
    cbn [list_ascii_of_string List.length String.length]. rewrite IH.
    reflexivity.
Qed.

(** ** The extension of an uploaded file *)

Lemma string_append_assoc (s t r : string) :
  ((s ++ t) ++ r)%string = (s ++ (t ++ r))%string.
Proof.
  induction s as [| ch s IH]; [reflexivity |].
  cbn [append]. rewrite IH. reflexivity.
Qed.

Lemma list_ascii_of_string_append (s t : string) :
  list_ascii_of_string (s ++ t) =
  list_ascii_of_string s ++ list_ascii_of_string t.
Proof.
  induction s as [| ch s IH]; [reflexivity |].
  cbn [append list_ascii_of_string app]. rewrite IH. reflexivity.
Qed.

Lemma split_dot_from_no_dot piece s :
  ~ In "."%char (list_ascii_of_string s) ->
  MenuImageUpload.split_dot_from piece s = [(piece ++ s)%string].
Proof.
  revert piece. induction s as [| ch s IH]; intros piece Hnot.
  - cbn [MenuImageUpload.split_dot_from]. rewrite string_append_empty.
    reflexivity.
  - cbn [MenuImageUpload.split_dot_from list_ascii_of_string In] in *.
    destruct (Ascii.eqb_spec ch "."%char) as [-> | Hne].
    + exfalso. apply Hnot. left. reflexivity.
    + rewrite IH.
      * rewrite string_append_assoc. reflexivity.
      * intros Hin. apply Hnot. right. exact Hin.
Qed.

Lemma split_dot_from_nonempty piece s :
  MenuImageUpload.split_dot_from piece s <> [].
Proof.
  revert piece. induction s as [| ch s IH]; intros piece.
  - discriminate.
  - cbn [MenuImageUpload.split_dot_from].
    destruct (Ascii.eqb ch "."%char); [discriminate | apply IH].
Qed.

Lemma last_cons_nonempty {A : Type} (x : A) (l : list A) (d : A) :
  l <> [] -> last (x :: l) d = last l d.
Proof. destruct l; [intros H; now elim H | reflexivity]. Qed.

Lemma split_dot_from_last_after_dot piece stem rest :
  last (MenuImageUpload.split_dot_from piece
          (stem ++ String "."%char rest)) EmptyString =
  last (MenuImageUpload.split_dot_from EmptyString rest) EmptyString.
Proof.
  revert piece. induction stem as [| ch stem IH]; intros piece.
  - cbn [append MenuImageUpload.split_dot_from].
    rewrite Ascii.eqb_refl.
    apply last_cons_nonempty, split_dot_from_nonempty.
  - cbn [append MenuImageUpload.split_dot_from].
    destruct (Ascii.eqb ch "."%char).
    + rewrite last_cons_nonempty by apply split_dot_from_nonempty.
      apply IH.
    + apply IH.
Qed.

Lemma split_dot_from_pieces piece s :
  ~ In "."%char (list_ascii_of_string piece) ->
  Forall (fun p => ~ In "."%char (list_ascii_of_string p))
         (MenuImageUpload.split_dot_from piece s).
Proof.
  revert piece. induction s as [| ch s IH]; intros piece Hp.
  - cbn [MenuImageUpload.split_dot_from]. constructor; [assumption |].
    constructor.
  - cbn [MenuImageUpload.split_dot_from].
    destruct (Ascii.eqb_spec ch "."%char) as [-> | Hne].
    + constructor; [assumption |]. apply IH. intros [].
    + apply IH. rewrite list_ascii_of_string_append, in_app_iff.
      cbn [list_ascii_of_string In]. intros [H | [H | []]]; auto.
Qed.

(** X23: the extension taken from a file name never holds a dot; it is what
    follows the last dot of the name, and the whole name when the name has
    no dot. *)
Theorem fileExt_is_what_follows_the_last_dot :
  forall name : string,
    ~ In "."%char (list_ascii_of_string (MenuImageUpload.fileExt name)) /\
    (~ In "."%char (list_ascii_of_string name) ->
     MenuImageUpload.fileExt name = name) /\
    (forall stem ext : string,
        name = (stem ++ String "."%char ext)%string ->
        ~ In "."%char (list_ascii_of_string ext) ->
        MenuImageUpload.fileExt name = ext).
Proof.
  intros name. unfold MenuImageUpload.fileExt, MenuImageUpload.split_dot.
  split; [| split].
  - assert (Hall := split_dot_from_pieces EmptyString name
                      (fun H : In "."%char [] => H)).
    pose proof (split_dot_from_nonempty EmptyString name) as Hne.
    destruct (exists_last Hne) as [front [p Heq]].
    rewrite Heq in *. rewrite last_last.
    apply Forall_app in Hall. destruct Hall as [_ Hp].
    inversion Hp; assumption.
  - intros Hnot. rewrite split_dot_from_no_dot by assumption. reflexivity.
  - intros stem ext -> Hext.
    rewrite split_dot_from_last_after_dot.
    rewrite split_dot_from_no_dot by assumption. reflexivity.
Qed.

(** ** The first guard of the handler, exactly *)

(** The world after the requests begin differs from the one before by its
    request log. *)
Lemma checked_run_sends_address b c u lat lng d w :
  exists (a : Address.t) (rest : list StoreCall),
    calls (snd ((setLoading true ;;
                 try_catch_finally (place_order_try b c u lat lng d)
                   place_order_catch (setLoading false)) w)) =
    calls w ++ InsertAddress a :: rest.
Proof.
  unfold place_order_try, place_order_catch, try_catch_finally, data_id,
    bind, ret, throw, supabase.insert_address, supabase.insert_order,
    supabase.insert_order_items, toast.error, toast.success, setLoading,
    clearCart, navigate, modify, show, log_call, set_store.
  reduce_world.
  destruct (addresses_insert b _); reduce_world;
    [destruct (orders_insert b _); reduce_world;
     [destruct (order_items_insert b _); reduce_world |] |];
    rewrite <- ?app_assoc; eexists _, _; reflexivity.
Qed.

Lemma show_toast_inj t1 t2 w :
  (Normal tt, show t1 w) = (Normal tt, show t2 w) -> t1 = t2.
Proof.
  intros H. injection H as H. apply app_inv_head in H. now injection H.
Qed.

(** X24: the handler ends on the single toast 'Please provide delivery
    location', with nothing sent, exactly when no user is signed in or one of
    the two coordinates is unset or [0]; a signed-out user is thus asked for
    a location, and no other run ends in that world. *)
Theorem location_toast_iff_guard :
  forall (b : Backend) (c : Checkout) (w : World),
    handlePlaceOrder b c w =
      (Normal tt,
       show (toast_error (Text "Please provide delivery location")) w) <->
    (user c = None \/
     latitude c = None \/ latitude c = Some 0 \/
     longitude c = None \/ longitude c = Some 0).
Proof.
  intros b c w. split.
  - intros Hrun.
    destruct (user c) as [u |] eqn:Hu; [| now left].
    destruct (latitude c) as [lat |] eqn:Hla; [| now right; left].
    destruct (longitude c) as [lng |] eqn:Hln;
      [| now right; right; right; left].
    destruct (Req_dec_T lat 0) as [-> | Hlat]; [now right; right; left |].
    destruct (Req_dec_T lng 0) as [-> | Hlng];
      [now right; right; right; right |].
    exfalso. revert Hrun. unfold handlePlaceOrder. rewrite Hu, Hla, Hln.
    rewrite (truthy_nonzero _ Hlat), (truthy_nonzero _ Hlng).
    cbn [negb orb]. unfold addressSchema.safeParse.
    destruct (String.length (label c) <? 1)%nat;
      [intros H; apply show_toast_inj in H; discriminate H |].
    destruct (String.length (addressLine c) <? 10)%nat;
      [intros H; apply show_toast_inj in H; discriminate H |].
    cbn [app]. cbv zeta.
    destruct (Rgt_dec _ _);
      [intros H; apply show_toast_inj in H; discriminate H |].
    intros H.
    destruct (checked_run_sends_address b c u lat lng
                (calculateDistance RESTAURANT_LAT RESTAURANT_LNG lat lng) w)
      as [a [rest Hcalls]].
    rewrite H in Hcalls. cbn [snd show calls] in Hcalls.
    apply (f_equal (@List.length StoreCall)) in Hcalls.
    rewrite length_app in Hcalls. cbn [List.length] in Hcalls. lia.
  - intros H.
    assert (Hcases : user c = None \/
                     truthy_opt (latitude c) = false \/
                     truthy_opt (longitude c) = false).
    { destruct H as [H | [H | [H | [H | H]]]]; auto;
        right; rewrite H; cbn [truthy_opt]; rewrite ?truthy_zero; auto. }
    destruct Hcases as [Hu | Hloc].
    + unfold handlePlaceOrder. rewrite Hu. reflexivity.
    + rewrite (handlePlaceOrder_no_location b c Hloc). reflexivity.
Qed.

(** ** An empty cart *)

(** X25: the handler does not look at the size of the cart: with no line
    in the cart and a total of [0], a form that passes the checks is
    submitted all the same; the order sent has a total of 30, the delivery
    fee, the third request carries no row, and the success toast is shown. *)
Theorem empty_cart_is_still_submitted :
  forall (b : Backend) (c : Checkout) (w : World) (u : User.t) (lat lng : R)
         (aid oid : string),
    let d := calculateDistance RESTAURANT_LAT RESTAURANT_LNG lat lng in
    user c = Some u -> latitude c = Some lat -> longitude c = Some lng ->
    lat <> 0 -> lng <> 0 ->
    addressSchema.safeParse (label c) (addressLine c) lat lng = [] ->
    d <= MAX_DELIVERY_DISTANCE ->
    items c = [] -> total c = 0 ->
    addresses_insert b (address_row c u lat lng) = Created aid ->
    orders_insert b (order_row c u aid d) = Created oid ->
    order_items_insert b [] = None ->
    let w' := snd (handlePlaceOrder b c w) in
    calls w' =
      calls w ++
      [InsertAddress (address_row c u lat lng);
       InsertOrder (order_row c u aid d); InsertOrderItems []] /\
    Order.total (order_row c u aid d) = 30 /\
    orders (store w') = orders (store w) ++ [(oid, order_row c u aid d)] /\
    order_items (store w') = order_items (store w) /\
    toasts w' = toasts w ++ [toast_success (Text "Order placed successfully!")].
Proof.
  intros b c w u lat lng aid oid d Hu Hla Hln Hlat Hlng Hparse Hd Hitems
    Htotal Haddr Hord Hits w'. subst w' d.
  rewrite (handlePlaceOrder_checked b c u lat lng) by assumption.
  unfold address_row, order_row in *.
  unfold_handler. reduce_world.
  rewrite Haddr. reduce_world.
  rewrite Hord. reduce_world.
  rewrite Hitems. cbn [map]. rewrite Hits. reduce_world.
  rewrite <- !app_assoc, app_nil_r. cbn [Order.total].
  repeat split; try reflexivity. rewrite Htotal. lra.
Qed.

Lemma empty_cart_is_still_submitted_witness :
  let w0 :=
    {| store := {| addresses := []; orders := []; order_items := [] |};
       calls := []; toasts := []; cart := [];
       location := None; loading := false |} in
  toasts
    (snd (handlePlaceOrder accepting_backend
            (render w0 (Some example_user) "Home"
               "12 Main Street, Anna Nagar" (Some 13.0878) (Some 80.2085) "")
            w0)) = [toast_success (Text "Order placed successfully!")].
Proof.
  cbv zeta.
  apply (empty_cart_is_still_submitted accepting_backend
           (render
              {| store := {| addresses := []; orders := []; order_items := [] |};
                 calls := []; toasts := []; cart := [];
                 location := None; loading := false |}
              (Some example_user) "Home"
              "12 Main Street, Anna Nagar" (Some 13.0878) (Some 80.2085) "")
           {| store := {| addresses := []; orders := []; order_items := [] |};
              calls := []; toasts := []; cart := [];
              location := None; loading := false |}
           example_user 13.0878 80.2085 "address-1" "order-1");
    try reflexivity; try lra.
  exact restaurant_is_in_range.
Defined.
